(** * converter.py: batch sizing, linear correction and saving of HDF5 datasets

    A shallow embedding of the [Data] class of [src/converter.py] and of the
    [Gui] methods that act on it (opening a file, selecting keys, saving,
    [handle_dataset], [handle_batches]), followed by the properties of the
    batch-sizing and correction pipeline and of the methods around it.  The
    layout of the window and its labels are left out.

    - Python integers are [Z]; Python floats and numpy's float64 are the
      binary64 numbers of the standard library's [SpecFloat].
    - Exceptions are values of [exn]; a method of the [Data] object is a
      function from the object's state to an [outcome], which keeps the
      state reached when an exception is raised.
    - The source container is read from an environment [Env], which also
      says which reads, array operations and writes fail (memory, I/O);
      written containers live in the [disk] of the [World].
    - The answers of the dialogs and the walk of [f.visit] are arguments of
      the methods that ask for them. *)

From Stdlib Require Import ZArith Lia List String Ascii SpecFloat.
From stdpp Require Import gmap strings pretty.

Local Open Scope string_scope.
Local Open Scope list_scope.
Local Open Scope Z_scope.

(* ===================================================================== *)
(** * Python semantics used by the program *)
(* ===================================================================== *)

Module Py.

(** The exception classes that can reach the program's [except] clause. *)
Inductive exn : Type :=
| KeyError (name : string)        (* missing node or attribute *)
| AttributeError (name : string)  (* object field read before assignment *)
| ValueError
| MemoryError
| OverflowError
| ZeroDivisionError
| OSError.

Inductive result (A : Type) : Type :=
| Ok (a : A)
| Err (e : exn).
Arguments Ok {A} a.
Arguments Err {A} e.

Definition bind {A B} (r : result A) (k : A -> result B) : result B :=
  match r with
  | Ok a => k a
  | Err e => Err e
  end.

(** ** Floats: IEEE 754 binary64 *)

Definition float := spec_float.
Definition prec : Z := 53.
Definition emax : Z := 1024.

(** An integer as an exact, not yet rounded, floating-point operand. *)
Definition Z2SF (z : Z) : float :=
  match z with
  | Z0 => S754_zero false
  | Zpos p => S754_finite false p 0
  | Zneg p => S754_finite true p 0
  end.

(** [float(z)]: the integer rounded to binary64 (exact below 2^53). *)
Definition float_of_int (z : Z) : float := binary_normalize prec emax z 0 false.

Definition fmul (x y : float) : float := SFmul prec emax x y.
Definition fadd (x y : float) : float := SFadd prec emax x y.

(** [a / b] on integers: the quotient correctly rounded to binary64
    (round to nearest, ties to even), [ZeroDivisionError] for [b = 0] and
    [OverflowError] when the rounded quotient is not finite. *)
Definition truediv (a b : Z) : result float :=
  if b =? 0 then Err ZeroDivisionError
  else match SFdiv prec emax (Z2SF a) (Z2SF b) with
       | S754_infinity _ => Err OverflowError
       | q => Ok q
       end.

(** The integer part of the magnitude [m * 2^e]. *)
Definition trunc_mag (m : positive) (e : Z) : Z :=
  if 0 <=? e then Zpos m * 2 ^ e else Zpos m / 2 ^ (- e).

(** [int(x)] on a float: truncation toward zero. *)
Definition int (x : float) : result Z :=
  match x with
  | S754_zero _ => Ok 0
  | S754_finite s m e => Ok (cond_Zopp s (trunc_mag m e))
  | S754_infinity _ => Err OverflowError
  | S754_nan => Err ValueError
  end.

(** [int(a / b)] *)
Definition int_truediv (a b : Z) : result Z := bind (truediv a b) int.

(** ** Strings *)

(** [s.split(sep)] for a one-character separator: never the empty list. *)
Fixpoint split (sep : ascii) (s : string) : list string :=
  match s with
  | EmptyString => [EmptyString]
  | String c s' =>
      if Ascii.eqb c sep then EmptyString :: split sep s'
      else match split sep s' with
           | [] => [String c EmptyString]
           | w :: ws => String c w :: ws
           end
  end.

(** [sep.join(l)] *)
Fixpoint join (sep : string) (l : list string) : string :=
  match l with
  | [] => ""
  | w :: ws =>
      match ws with
      | [] => w
      | _ :: _ => w +:+ sep +:+ join sep ws
      end
  end.

(** [str(z)] *)
Definition str (z : Z) : string := pretty z.

(** ** Slices *)

(** The position a slice index denotes in a sequence of length [len]. *)
Definition slice_index (len i : Z) : Z :=
  if i <? 0 then Z.max (i + len) 0 else Z.min i len.

(** [l[start:stop]] *)
Definition slice {A} (l : list A) (start stop : Z) : list A :=
  let len := Z.of_nat (length l) in
  let lo := slice_index len start in
  let hi := slice_index len stop in
  take (Z.to_nat (hi - lo)) (drop (Z.to_nat lo) l).

(** [range(n)] *)
Definition range (n : Z) : list Z := map Z.of_nat (seq 0 (Z.to_nat n)).

End Py.
Export Py.

Notation "'let*' x ':=' r 'in' k" := (Py.bind r (fun x => k))
  (at level 10, x name, r at level 100, k at level 200).

(* ===================================================================== *)
(** * numpy arrays and the HDF5 container *)
(* ===================================================================== *)

(** A rank-3 array: rows, each a matrix. *)
Definition array3 (A : Type) : Type := list (list (list A)).

Definition map3 {A B} (f : A -> B) (a : array3 A) : array3 B :=
  map (map (map f)) a.

(** Modelled from the spec: numpy's [astype("uint16")], which is not part of
    the repository.  The cast truncates toward zero and keeps the low
    sixteen bits; it neither clamps nor rounds.  Values that are not finite
    have no integer part and are sent to 0. *)
Definition astype_uint16 (x : float) : Z :=
  match x with
  | S754_finite s m e => cond_Zopp s (trunc_mag m e) mod 65536
  | _ => 0
  end.

(** A container file: the dataset nodes by key path and the attributes of
    the group nodes by group path; the root group has the path [/].
    Dataset elements are kept as binary64 values, the type in which numpy
    evaluates [scale * x + offset]. *)
Record h5file : Type := H5File {
  h5_dataset_nodes : gmap string (array3 float);
  h5_group_nodes : gmap string (gmap string float)
}.

(** [f[path]] for a dataset and for a group.  The empty path names no
    object, whatever the file holds: [f[""]] raises [KeyError], which the
    lookups below give as [None]. *)
Definition h5_datasets (f : h5file) : gmap string (array3 float) :=
  delete "" (h5_dataset_nodes f).

Definition h5_groups (f : h5file) : gmap string (gmap string float) :=
  delete "" (h5_group_nodes f).

Arguments h5_datasets : simpl never.
Arguments h5_groups : simpl never.

(** What the program reads, and which operations fail. *)
Record Env : Type := MkEnv {
  files : gmap string h5file;                       (* readable containers, by path *)
  read_fault : string -> Z -> Z -> option exn;      (* reading rows [start:stop] of a key *)
  arith_fault : array3 float -> option exn;         (* evaluating scale * a + offset *)
  open_fault : string -> option exn;                (* opening a path for writing *)
  write_fault : string -> array3 float -> option (exn * gmap string (array3 Z))
    (* casting and storing an array: the exception, and the nodes the
       failed store leaves in the container *)
}.

(* ===================================================================== *)
(** * class Data *)
(* ===================================================================== *)

Record Data : Type := MkData {
  h5keys : list string;
  h5key : string;
  loadpath : string;
  savepath : string;
  num_batches : Z;
  dataset : option (array3 float);   (* unset until the first load *)
  linear_offset : option float;      (* unset until first read *)
  linear_scale : option float
}.

(** [Data(loadpath=..., savepath=...)] *)
Definition init (loadpath savepath : string) : Data :=
  MkData ["Open file to select h5 dataset(s)"] "" loadpath savepath 1 None None None.

Definition set_h5key (k : string) (d : Data) : Data :=
  MkData (h5keys d) k (loadpath d) (savepath d) (num_batches d)
         (dataset d) (linear_offset d) (linear_scale d).

Definition set_num_batches (n : Z) (d : Data) : Data :=
  MkData (h5keys d) (h5key d) (loadpath d) (savepath d) n
         (dataset d) (linear_offset d) (linear_scale d).

Definition set_dataset (a : array3 float) (d : Data) : Data :=
  MkData (h5keys d) (h5key d) (loadpath d) (savepath d) (num_batches d)
         (Some a) (linear_offset d) (linear_scale d).

Definition set_linear_offset (x : float) (d : Data) : Data :=
  MkData (h5keys d) (h5key d) (loadpath d) (savepath d) (num_batches d)
         (dataset d) (Some x) (linear_scale d).

Definition set_linear_scale (x : float) (d : Data) : Data :=
  MkData (h5keys d) (h5key d) (loadpath d) (savepath d) (num_batches d)
         (dataset d) (linear_offset d) (Some x).

(** The result of running a method on a state [S]: normal completion, or an
    exception together with the state reached when it was raised. *)
Inductive outcome (S : Type) : Type :=
| Done (s : S)
| Raised (e : exn) (s : S).
Arguments Done {S} s.
Arguments Raised {S} e s.

Definition and_then {S} (o : outcome S) (k : S -> outcome S) : outcome S :=
  match o with
  | Done s => k s
  | Raised e s => Raised e s
  end.

Definition final {S} (o : outcome S) : S :=
  match o with
  | Done s => s
  | Raised _ s => s
  end.

(** ** Data loading *)

(** [with h5py.File(self.loadpath, "r") as f] *)
Definition open_read (env : Env) (self : Data) : result h5file :=
  match files env !! loadpath self with
  | Some f => Ok f
  | None => Err OSError
  end.

(** The row bounds of a batch, as [load_dataset_batch] computes them. *)
Definition batch_bounds (dataset_size n batch : Z) : result (Z * Z) :=
  let* batch_start := int_truediv (batch * dataset_size) n in
  let* batch_end := int_truediv ((batch + 1) * dataset_size) n in
  Ok (batch_start, batch_end).

Definition load_dataset_batch (env : Env) (batch : Z) (self : Data) : outcome Data :=
  match open_read env self with
  | Err e => Raised e self
  | Ok f =>
      match h5_datasets f !! h5key self with
      | None => Raised (KeyError (h5key self)) self
      | Some rows =>
          let dataset_size := Z.of_nat (length rows) in
          match batch_bounds dataset_size (num_batches self) batch with
          | Err e => Raised e self
          | Ok (batch_start, batch_end) =>
              match read_fault env (h5key self) batch_start batch_end with
              | Some e => Raised e self
              | None => Done (set_dataset (slice rows batch_start batch_end) self)
              end
          end
      end
  end.

(** ** Data correction *)

(** ["/".join(self.h5key.split("/")[0:-1])] *)
Definition parent_group (key : string) : string :=
  join "/" (removelast (split "/"%char key)).

(** [self.h5key.split("/")[-1]] *)
Definition leaf_name (key : string) : string :=
  List.last (split "/"%char key) "".

Definition offset_attribute (key : string) : string :=
  leaf_name key +:+ "_Conversion_ConversionLinearOffset".

Definition scale_attribute (key : string) : string :=
  leaf_name key +:+ "_Conversion_ConversionLinearScale".

(** [f[group].attrs[attribute]] *)
Definition read_attribute (f : h5file) (group attribute : string) : result float :=
  match h5_groups f !! group with
  | None => Err (KeyError group)
  | Some attrs =>
      match attrs !! attribute with
      | None => Err (KeyError attribute)
      | Some v => Ok v
      end
  end.

Definition get_linear_offset (env : Env) (self : Data) : outcome Data :=
  let group := parent_group (h5key self) in
  let attribute := offset_attribute (h5key self) in
  match (let* f := open_read env self in read_attribute f group attribute) with
  | Ok v => Done (set_linear_offset v self)
  | Err e => Raised e self
  end.

Definition get_linear_scale (env : Env) (self : Data) : outcome Data :=
  let group := parent_group (h5key self) in
  let attribute := scale_attribute (h5key self) in
  match (let* f := open_read env self in read_attribute f group attribute) with
  | Ok v => Done (set_linear_scale v self)
  | Err e => Raised e self
  end.

(** [self.linear_scale * x + self.linear_offset] on one element *)
Definition correct_element (scale offset x : float) : float :=
  fadd (fmul scale x) offset.

Definition apply_correction (env : Env) (self : Data) : outcome Data :=
  match linear_scale self, dataset self, linear_offset self with
  | None, _, _ => Raised (AttributeError "linear_scale") self
  | Some _, None, _ => Raised (AttributeError "dataset") self
  | Some _, Some _, None => Raised (AttributeError "linear_offset") self
  | Some scale, Some a, Some offset =>
      match arith_fault env a with
      | Some e => Raised e self
      | None => Done (set_dataset (map3 (correct_element scale offset) a) self)
      end
  end.

Definition linear_correction (env : Env) (self : Data) : outcome Data :=
  and_then (and_then (get_linear_offset env self) (get_linear_scale env))
           (apply_correction env).

(** ** Batch sizing *)

(** The classes named by [except (ValueError, MemoryError)]. *)
Definition caught (e : exn) : bool :=
  match e with
  | ValueError | MemoryError => true
  | _ => false
  end.

(** The body of the [try] block: one sizing probe. *)
Definition probe (env : Env) (corr : bool) (self : Data) : outcome Data :=
  and_then (load_dataset_batch env 0 self)
           (fun s => if corr then linear_correction env s else Done s).

(** The [while True] loop; [None] when [fuel] iterations were not enough. *)
Fixpoint sizing_loop (fuel : nat) (env : Env) (corr : bool) (self : Data)
  : option (outcome Data) :=
  match fuel with
  | O => None
  | S fuel' =>
      match probe env corr self with
      | Done s => Some (Done s)
      | Raised e s =>
          if caught e
          then sizing_loop fuel' env corr (set_num_batches (num_batches s + 1) s)
          else Some (Raised e s)
      end
  end.

Definition find_num_batches (fuel : nat) (env : Env) (corr : bool) (self : Data)
  : option (outcome Data) :=
  sizing_loop fuel env corr (set_num_batches 1 self).

(** ** Data saving *)

Definition full_savepath (corr : bool) (batch : Z) (self : Data) : string :=
  let savepath := savepath self in
  let savepath := if corr then savepath +:+ "-corr" else savepath in
  let savepath :=
    if 1 <? num_batches self then savepath +:+ "_batch" +:+ str batch else savepath in
  savepath +:+ ".h5".

(** The object together with the containers it has written. *)
Record World : Type := MkWorld {
  data : Data;
  disk : gmap string (gmap string (array3 Z))
}.

Definition on_data (w : World) (o : outcome Data) : outcome World :=
  match o with
  | Done d => Done (MkWorld d (disk w))
  | Raised e d => Raised e (MkWorld d (disk w))
  end.

(** [save_dataset]: mode ["w"] creates the file or truncates an existing
    one; [create_dataset] then stores the cast array under [self.h5key].
    When the cast or the store fails, the container is closed with what the
    store had put there by then. *)
Definition save_dataset (env : Env) (corr : bool) (batch : Z) (w : World)
  : outcome World :=
  let self := data w in
  let savepath := full_savepath corr batch self in
  match open_fault env savepath with
  | Some e => Raised e w
  | None =>
      let opened := MkWorld self (<[savepath := ∅]> (disk w)) in
      match dataset self with
      | None => Raised (AttributeError "dataset") opened
      | Some a =>
          match write_fault env savepath a with
          | Some (e, rest) => Raised e (MkWorld self (<[savepath := rest]> (disk w)))
          | None =>
              Done (MkWorld self
                      (<[savepath := {[h5key self := map3 astype_uint16 a]}]> (disk w)))
          end
      end
  end.

(* ===================================================================== *)
(** * class Gui: handling a dataset *)
(* ===================================================================== *)

(** One iteration of the loop of [handle_batches]: load, correct when
    requested, save.  The status label and the timing are presentation. *)
Definition handle_batch (env : Env) (corr : bool) (batch : Z) (w : World)
  : outcome World :=
  and_then (on_data w (load_dataset_batch env batch (data w)))
    (fun w1 =>
       if corr
       then and_then (on_data w1 (linear_correction env (data w1)))
                     (save_dataset env corr batch)
       else save_dataset env corr batch w1).

Fixpoint for_batches (env : Env) (corr : bool) (batches : list Z) (w : World)
  : outcome World :=
  match batches with
  | [] => Done w
  | batch :: rest => and_then (handle_batch env corr batch w) (for_batches env corr rest)
  end.

Definition handle_batches (env : Env) (corr : bool) (w : World) : outcome World :=
  for_batches env corr (range (num_batches (data w))) w.

Definition handle_dataset (fuel : nat) (env : Env) (corr : bool) (w : World)
  : option (outcome World) :=
  match find_num_batches fuel env corr (data w) with
  | None => None
  | Some o => Some (and_then (on_data w o) (handle_batches env corr))
  end.

(* ===================================================================== *)
(** * The rest of the program: listing keys, selection, dialogs *)
(* ===================================================================== *)

Definition set_h5keys (ks : list string) (d : Data) : Data :=
  MkData ks (h5key d) (loadpath d) (savepath d) (num_batches d)
         (dataset d) (linear_offset d) (linear_scale d).

Definition set_loadpath (p : string) (d : Data) : Data :=
  MkData (h5keys d) (h5key d) p (savepath d) (num_batches d)
         (dataset d) (linear_offset d) (linear_scale d).

Definition set_savepath (p : string) (d : Data) : Data :=
  MkData (h5keys d) (h5key d) (loadpath d) p (num_batches d)
         (dataset d) (linear_offset d) (linear_scale d).

(** [isinstance(f[h5key], h5py.Dataset)] *)
Definition is_dataset (f : h5file) (h5key : string) : bool :=
  match h5_datasets f !! h5key with
  | Some _ => true
  | None => false
  end.

(** [load_h5keys].  [visit f] is the list of names [f.visit] passes to its
    callback, groups and datasets alike, in the order the library walks
    the file. *)
Definition load_h5keys (visit : h5file -> list string) (env : Env) (self : Data)
  : outcome Data :=
  match open_read env self with
  | Err e => Raised e self
  | Ok f =>
      let h5tree := visit f in
      Done (set_h5keys (filter (is_dataset f) h5tree) self)
  end.

(** [x in l] *)
Definition py_in (x : string) (l : list string) : bool :=
  existsb (String.eqb x) l.

(** [l.remove(x)]: drops the first occurrence, [ValueError] without one. *)
Fixpoint list_remove (x : string) (l : list string) : result (list string) :=
  match l with
  | [] => Err ValueError
  | y :: l' =>
      if String.eqb y x then Ok l'
      else let* r := list_remove x l' in Ok (y :: r)
  end.

(** [s.replace(a, b)] for one-character [a] and [b] *)
Fixpoint replace_char (a b : ascii) (s : string) : string :=
  match s with
  | EmptyString => EmptyString
  | String c s' => String (if Ascii.eqb c a then b else c) (replace_char a b s')
  end.

(** [if s:] on a string *)
Definition truthy (s : string) : bool := negb (String.eqb s "").

(** The part of the [Gui] object the callbacks below read and write; the
    widgets and the status label are presentation. *)
Record Gui : Type := MkGui {
  world : World;                  (* self.data, and the files written *)
  selected_h5keys : list string;
  corr : bool
}.

Definition set_world (w : World) (g : Gui) : Gui :=
  MkGui w (selected_h5keys g) (corr g).

Definition on_world (g : Gui) (o : outcome World) : outcome Gui :=
  match o with
  | Done w => Done (set_world w g)
  | Raised e w => Raised e (set_world w g)
  end.

(** [update_h5keys_dd], through [add_h5keys_dropdown]: the menu is built
    anew, which is presentation, and for every selected key the position
    [self.data.h5keys.index(h5key)] is looked up, which raises [ValueError]
    for a key that is not listed.  The widgets themselves are not part of
    the model. *)
Definition update_h5keys_dd (g : Gui) : outcome Gui :=
  if forallb (fun h5key => py_in h5key (h5keys (data (world g)))) (selected_h5keys g)
  then Done g
  else Raised ValueError g.

(** [open_h5]; [answer] is what the file dialog returns, empty when it is
    cancelled. *)
Definition open_h5 (visit : h5file -> list string) (env : Env) (answer : string) (g : Gui)
  : outcome Gui :=
  let d := set_loadpath answer (data (world g)) in
  if truthy answer
  then match load_h5keys visit env d with
       | Done d' => update_h5keys_dd (MkGui (MkWorld d' (disk (world g))) [] (corr g))
       | Raised e d' => Raised e (set_world (MkWorld d' (disk (world g))) g)
       end
  else Done (set_world (MkWorld d (disk (world g))) g).

(** [select_h5key]: the key is added to the selection or removed from it,
    then the menu is updated. *)
Definition select_h5key (menu_selection : string) (g : Gui) : outcome Gui :=
  and_then
    (if negb (py_in menu_selection (selected_h5keys g))
     then Done (MkGui (world g) (selected_h5keys g ++ [menu_selection]) (corr g))
     else match list_remove menu_selection (selected_h5keys g) with
          | Ok l => Done (MkGui (world g) l (corr g))
          | Err e => Raised e g
          end)
    update_h5keys_dd.

(** [single_dataset], entered with exactly one selected key [first], which
    is [self.selected_h5keys[0]]; [answer] is what the save dialog returns. *)
Definition single_dataset (fuel : nat) (env : Env) (answer : string) (first : string)
  (g : Gui) : option (outcome Gui) :=
  let d := set_savepath answer (set_h5key first (data (world g))) in
  let w := MkWorld d (disk (world g)) in
  if truthy answer
  then match handle_dataset fuel env (corr g) w with
       | Some o => Some (on_world g o)
       | None => None
       end
  else Some (Done (set_world w g)).

(** The loop of [multiple_datasets]; [path_join d n] is
    [str(Path(d, n))]. *)
Fixpoint for_h5keys (fuel : nat) (path_join : string -> string -> string) (env : Env)
  (corr : bool) (save_directory : string) (keys : list string) (w : World)
  : option (outcome World) :=
  match keys with
  | [] => Some (Done w)
  | h5key :: rest =>
      let d := set_savepath (path_join save_directory (replace_char "/" "-" h5key))
                 (set_h5key h5key (data w)) in
      match handle_dataset fuel env corr (MkWorld d (disk w)) with
      | None => None
      | Some (Done w1) => for_h5keys fuel path_join env corr save_directory rest w1
      | Some (Raised e w1) => Some (Raised e w1)
      end
  end.

(** [multiple_datasets]; [answer] is what the directory dialog returns. *)
Definition multiple_datasets (fuel : nat) (path_join : string -> string -> string)
  (env : Env) (answer : string) (g : Gui) : option (outcome Gui) :=
  if truthy answer
  then match for_h5keys fuel path_join env (corr g) answer (selected_h5keys g) (world g) with
       | Some o => Some (on_world g o)
       | None => None
       end
  else Some (Done g).

Definition check_number_of_datasets (fuel : nat) (path_join : string -> string -> string)
  (env : Env) (answer : string) (g : Gui) : option (outcome Gui) :=
  match selected_h5keys g with
  | [] => Some (Done g)
  | [first] => single_dataset fuel env answer first g
  | _ :: _ :: _ => multiple_datasets fuel path_join env answer g
  end.

Definition save_h5 (fuel : nat) (path_join : string -> string -> string) (env : Env)
  (answer : string) (corr : bool) (g : Gui) : option (outcome Gui) :=
  check_number_of_datasets fuel path_join env answer
    (MkGui (world g) (selected_h5keys g) corr).

(* ===================================================================== *)
(** * Rounded division in closed form *)
(* ===================================================================== *)

(** [n / d] rounded to the nearest integer, ties to even. *)
Definition rne (n d : Z) : Z :=
  let q := n / d in
  match 2 * (n mod d) ?= d with
  | Lt => q
  | Eq => if Z.even q then q else q + 1
  | Gt => q + 1
  end.

(** [A / b] rounded to 53 significant bits; binary64 division of [a] by [b]
    is [round53 (a * 2^1074) b], counted in units of 2^-1074. *)
Definition round53 (A b : Z) : Z :=
  let g := Z.max (Zdigits2 (A / b) - 53) 0 in
  rne A (b * 2 ^ g) * 2 ^ g.

(** The shift record [mrs] holds the integer part of [n / d] and says where
    the rest lies with respect to one half. *)
Definition locates (mrs : shr_record) (n d : Z) : Prop :=
  0 < d /\
  shr_m mrs * d <= n < (shr_m mrs + 1) * d /\
  (shr_r mrs = true <-> d <= 2 * (n - shr_m mrs * d)) /\
  (shr_s mrs = true <-> n <> shr_m mrs * d /\ 2 * (n - shr_m mrs * d) <> d).

(* ===================================================================== *)
(** * Observations used to state the properties *)
(* ===================================================================== *)

(** The exception an outcome carries, if any. *)
Definition raised {S} (o : outcome S) : option exn :=
  match o with
  | Done _ => None
  | Raised e _ => Some e
  end.

(** What a sizing call reports when it returns: the batch count it settled
    on, or the exception that ended it. *)
Definition sizing_result (r : option (outcome Data)) : option (result Z) :=
  match r with
  | None => None
  | Some (Done s) => Some (Ok (num_batches s))
  | Some (Raised e _) => Some (Err e)
  end.

(** Two objects name the same dataset of the same file. *)
Definition same_request (s1 s2 : Data) : Prop :=
  loadpath s1 = loadpath s2 /\ h5key s1 = h5key s2.

(** ... and partition it in the same number of batches. *)
Definition same_probe (s1 s2 : Data) : Prop :=
  same_request s1 s2 /\ num_batches s1 = num_batches s2.

(** The save path as the specification derives it from the base path, the
    correction flag, the batch index and the batch count. *)
Definition derive (base : string) (corr : bool) (i n : Z) : string :=
  base +:+ (if corr then "-corr" else "")
       +:+ (if 1 <? n then "_batch" +:+ str i else "")
       +:+ ".h5".

(** The row bounds of the specification: exact floors. *)
Definition floor_start (R N i : Z) : Z := i * R / N.
Definition floor_end (R N i : Z) : Z := (i + 1) * R / N.

(** The array stored under [key] in the written container at [path]. *)
Definition saved (d : gmap string (gmap string (array3 Z))) (path key : string)
  : option (array3 Z) :=
  match d !! path with
  | Some f => f !! key
  | None => None
  end.



(** What [handle_batches] stores for a source element [x]: the corrected
    value when correction is requested, cast to uint16. *)
Definition stored_element (f : h5file) (key : string) (corr : bool) (x : float) : Z :=
  astype_uint16
    (if corr
     then match read_attribute f (parent_group key) (scale_attribute key),
                read_attribute f (parent_group key) (offset_attribute key) with
          | Ok scale, Ok offset => correct_element scale offset x
          | _, _ => x
          end
     else x).

(* ===================================================================== *)
(** * A small container and its environments, for the examples *)
(* ===================================================================== *)

(** Five rows of one element each, holding 1.0 to 5.0. *)
Definition example_rows : array3 float :=
  map (fun z => [[float_of_int z]]) [1; 2; 3; 4; 5].

Definition example_attrs : gmap string float :=
  {[ "d_Conversion_ConversionLinearOffset" := float_of_int 10;
     "d_Conversion_ConversionLinearScale" := float_of_int 2 ]}.

(** The dataset [g/d] with offset 10.0 and scale 2.0 on its parent group. *)
Definition example_file : h5file :=
  H5File {[ "g/d" := example_rows ]} {[ "g" := example_attrs ]}.

(** The same dataset, its group lacking the scale attribute. *)
Definition example_file_no_scale : h5file :=
  H5File {[ "g/d" := example_rows ]}
         {[ "g" := {[ "d_Conversion_ConversionLinearOffset" := float_of_int 10 ]} ]}.

(** Memory for two rows at a time. *)
Definition two_rows_fit (key : string) (lo hi : Z) : option exn :=
  if 2 <? hi - lo then Some MemoryError else None.

Definition no_fault {A E} (x : A) : option E := None.

Definition example_env : Env :=
  MkEnv {[ "in.h5" := example_file ]} two_rows_fit no_fault no_fault (fun _ => no_fault).

Definition example_env_no_scale : Env :=
  MkEnv {[ "in.h5" := example_file_no_scale ]} two_rows_fit no_fault no_fault
        (fun _ => no_fault).

(** Enough memory for everything. *)
Definition example_env_roomy : Env :=
  MkEnv {[ "in.h5" := example_file ]} (fun _ _ => no_fault) no_fault no_fault
        (fun _ => no_fault).

Definition example_data : Data := set_h5key "g/d" (init "in.h5" "out/x").

Definition example_world : World := MkWorld example_data ∅.

(** The scenario of the specification: 100 rows of shape 4 x 4 under a group
    with offset 1.0 and scale 0.5, and memory for loads of at most 34 rows. *)
Definition one_half : float := S754_finite false 4503599627370496 (-53).

Definition scenario_rows : array3 float :=
  map (fun z => repeat (repeat (float_of_int z) 4) 4) (range 100).

Definition scenario_file : h5file :=
  H5File {[ "g/d" := scenario_rows ]}
         {[ "g" := {[ "d_Conversion_ConversionLinearOffset" := float_of_int 1;
                      "d_Conversion_ConversionLinearScale" := one_half ]} ]}.

Definition scenario_env : Env :=
  MkEnv {[ "in.h5" := scenario_file ]}
        (fun _ lo hi => if 34 <? hi - lo then Some MemoryError else None)
        no_fault no_fault (fun _ => no_fault).

Definition scenario_world : World :=
  MkWorld (set_h5key "g/d" (init "in.h5" "base")) ∅.

(** The disk a run leaves, when it returns. *)
Definition disk_after (r : option (outcome World))
  : option (gmap string (gmap string (array3 Z))) :=
  match r with
  | Some o => Some (disk (final o))
  | None => None
  end.

(** What sizing the example dataset with correction leaves. *)
Definition example_sizing : outcome Data :=
  match find_num_batches 2 example_env true example_data with
  | Some o => o
  | None => Done example_data
  end.

(** An empty dataset in a container none of whose reads finds memory. *)
Definition example_env_no_memory : Env :=
  MkEnv {[ "in.h5" := H5File {[ "g/d" := [] ]} ∅ ]}
        (fun _ _ _ => Some MemoryError) no_fault no_fault (fun _ => no_fault).



(** The names a walk of the example container passes on: the group, then
    the dataset in it. *)
Definition example_visit (f : h5file) : list string := ["g"; "g/d"].

Definition example_gui : Gui := MkGui example_world ["g/d"] false.

(** The same, after a file listing the keys [g/d] and [g/e] was opened. *)
Definition listed_gui : Gui :=
  MkGui (MkWorld (set_h5keys ["g/d"; "g/e"] example_data) ∅) ["g/d"] false.




(** Two datasets whose keys differ in a slash against a hyphen. *)
Definition collision_file : h5file :=
  H5File {[ "g/d" := example_rows; "g-d" := [[[float_of_int 7]]] ]} ∅.

Definition collision_env : Env :=
  MkEnv {[ "in.h5" := collision_file ]} (fun _ _ => no_fault) no_fault no_fault
        (fun _ => no_fault).

(** [str(Path(directory, name))] for a plain directory and file name. *)
Definition example_join (directory name : string) : string :=
  directory +:+ "/" +:+ name.

(** The world a run over [keys] leaves. *)
Definition world_after (fuel : nat) (env : Env) (corr : bool) (directory : string)
  (keys : list string) (w : World) : World :=
  match for_h5keys fuel example_join env corr directory keys w with
  | Some o => final o
  | None => w
  end.

(* ===================================================================== *)
(** * Properties *)
(* ===================================================================== *)

(** ** Binary64 division of integers *)

Lemma digits2_pos_size p : digits2_pos p = Pos.size p.
Proof. induction p; simpl; congruence. Qed.

Lemma Zdigits2_log2 n : 0 < n -> Zdigits2 n = Z.log2 n + 1.
Proof.
  destruct n as [|p|p]; try lia. intros _.
  destruct p; simpl; rewrite ?digits2_pos_size; lia.
Qed.

Lemma Zdigits2_bounds n : 0 < n -> 2 ^ (Zdigits2 n - 1) <= n < 2 ^ Zdigits2 n.
Proof.
  intros Hn. rewrite Zdigits2_log2 by lia.
  replace (Z.log2 n + 1 - 1) with (Z.log2 n) by lia.
  replace (Z.log2 n + 1) with (Z.succ (Z.log2 n)) by lia.
  apply Z.log2_spec; lia.
Qed.

Lemma Zdigits2_unique n d : 2 ^ (d - 1) <= n < 2 ^ d -> 0 < d -> Zdigits2 n = d.
Proof.
  intros H Hd.
  assert (0 < n) by (pose proof (Z.pow_pos_nonneg 2 (d - 1)); lia).
  rewrite Zdigits2_log2 by lia.
  rewrite (Z.log2_unique n (d - 1)); try lia.
  replace (Z.succ (d - 1)) with d by lia. lia.
Qed.

Lemma Zdigits2_nonneg n : 0 <= Zdigits2 n.
Proof. destruct n; simpl; lia. Qed.

Lemma Zdigits2_pos n : 0 < n -> 0 < Zdigits2 n.
Proof. destruct n; simpl; lia. Qed.

Lemma Zdigits2_mono n m : 0 <= n <= m -> Zdigits2 n <= Zdigits2 m.
Proof.
  intros [H0 H1].
  destruct (Z.eq_dec n 0) as [->|Hn]; [apply Zdigits2_nonneg|].
  rewrite !Zdigits2_log2 by lia.
  pose proof (Z.log2_le_mono n m H1). lia.
Qed.

Lemma Zdigits2_le_iff n d : 0 <= n -> 0 <= d -> (Zdigits2 n <= d <-> n < 2 ^ d).
Proof.
  intros Hn Hd.
  destruct (Z.eq_dec n 0) as [->|Hn0].
  { simpl. pose proof (Z.pow_pos_nonneg 2 d). lia. }
  rewrite Zdigits2_log2 by lia.
  split; intros H.
  - apply Z.log2_lt_pow2; lia.
  - apply Z.log2_lt_pow2 in H; lia.
Qed.

(** shifting *)
Lemma locates_half m r s n d m' (bit : bool) :
  locates (Build_shr_record m r s) n d ->
  m = 2 * m' + (if bit then 1 else 0) ->
  locates (Build_shr_record m' bit (orb r s)) n (2 * d).
Proof.
  unfold locates; simpl. intros (Hd & Hb & Hr & Hs) ->.
  assert (Hr' : r = true \/ r = false) by (destruct r; auto).
  assert (Hs' : s = true \/ s = false) by (destruct s; auto).
  split; [lia|]. split; [destruct bit; nia|].
  split.
  - destruct bit; split; intros H; try discriminate; try reflexivity; nia.
  - rewrite orb_true_iff. split.
    + intros [H|H]; [apply Hr in H|apply Hs in H]; destruct bit; nia.
    + intros [H1 H2].
      destruct Hr' as [?|Hr']; [auto|]. right. apply Hs.
      assert (~ d <= 2 * (n - (2 * m' + (if bit then 1 else 0)) * d)) by (rewrite <- Hr; congruence).
      destruct bit; nia.
Qed.

Lemma locates_shr_1 mrs n d :
  0 <= shr_m mrs -> locates mrs n d ->
  locates (shr_1 mrs) n (2 * d) /\ shr_m (shr_1 mrs) = shr_m mrs / 2.
Proof.
  destruct mrs as [m r s]. simpl. intros Hm H.
  destruct m as [|[p|p|]|p]; try lia; simpl.
  - split; [|reflexivity]. apply (locates_half _ _ _ _ _ 0 false) in H; auto.
  - split; [apply (locates_half _ _ _ _ _ (Z.pos p) true) in H; auto; lia|].
    rewrite Pos2Z.inj_xI. apply (Z.div_unique _ 2 _ 1); lia.
  - split; [apply (locates_half _ _ _ _ _ (Z.pos p) false) in H; auto; lia|].
    rewrite Pos2Z.inj_xO. apply (Z.div_unique _ 2 _ 0); lia.
  - split; [|reflexivity]. apply (locates_half _ _ _ _ _ 0 true) in H; auto.
Qed.

Lemma iter_pos_succ {A} (f : A -> A) p x : SpecFloat.iter_pos f (Pos.succ p) x = f (SpecFloat.iter_pos f p x).
Proof.
  assert (Hcomm : forall q y, SpecFloat.iter_pos f q (f y) = f (SpecFloat.iter_pos f q y)).
  { induction q; intros y; simpl; rewrite ?IHq; reflexivity. }
  revert x. induction p; intros x; simpl; rewrite ?IHp, ?Hcomm; reflexivity.
Qed.

Lemma locates_iter_shr p : forall mrs n d,
  0 <= shr_m mrs -> locates mrs n d ->
  locates (SpecFloat.iter_pos shr_1 p mrs) n (d * 2 ^ Z.pos p) /\
  shr_m (SpecFloat.iter_pos shr_1 p mrs) = shr_m mrs / 2 ^ Z.pos p.
Proof.
  induction p using Pos.peano_ind; intros mrs n d Hm H.
  - simpl SpecFloat.iter_pos. replace (d * 2 ^ 1) with (2 * d) by lia. rewrite Z.pow_1_r.
    apply locates_shr_1; auto.
  - rewrite iter_pos_succ. destruct (IHp mrs n d Hm H) as [H1 H2].
    assert (0 <= shr_m (SpecFloat.iter_pos shr_1 p mrs)).
    { rewrite H2. apply Z.div_pos; [lia|]. apply Z.pow_pos_nonneg; lia. }
    destruct (locates_shr_1 _ _ _ H0 H1) as [H3 H4].
    rewrite Pos2Z.inj_succ, Z.pow_succ_r by lia. split.
    + replace (d * (2 * 2 ^ Z.pos p)) with (2 * (d * 2 ^ Z.pos p)) by lia. exact H3.
    + rewrite H4, H2. rewrite Z.div_div by (try lia; apply Z.pow_pos_nonneg; lia).
      f_equal. lia.
Qed.

(** rounding to nearest, ties to even, of n/d *)
Lemma rne_cases n d : 0 < d ->
  (2 * (n mod d) < d /\ rne n d = n / d) \/
  (2 * (n mod d) = d /\ rne n d = if Z.even (n / d) then n / d else n / d + 1) \/
  (2 * (n mod d) > d /\ rne n d = n / d + 1).
Proof.
  intros Hd. unfold rne.
  destruct (Z.compare_spec (2 * (n mod d)) d); [right; left|left|right; right]; split; auto; lia.
Qed.

Lemma rne_floor_ceil n d : 0 < d -> n / d <= rne n d <= n / d + 1.
Proof.
  intros Hd. destruct (rne_cases n d Hd) as [[_ ->]|[[_ ->]|[_ ->]]]; try lia.
  destruct (Z.even (n / d)); lia.
Qed.

Lemma rne_exact k d : 0 < d -> rne (k * d) d = k.
Proof.
  intros Hd. unfold rne. rewrite Z.mod_mul, Z.div_mul by lia.
  change (2 * 0) with 0. destruct (Z.compare_spec 0 d); lia.
Qed.

Lemma rne_ge_int n d k : 0 < d -> k * d <= n -> k <= rne n d.
Proof.
  intros Hd H. pose proof (rne_floor_ceil n d Hd).
  assert (k <= n / d) by (apply Z.div_le_lower_bound; lia). lia.
Qed.

Lemma rne_le_int n d k : 0 < d -> n <= k * d -> rne n d <= k.
Proof.
  intros Hd H. pose proof (rne_floor_ceil n d Hd).
  destruct (Z.eq_dec n (k * d)) as [->|Hne]; [rewrite rne_exact; lia|].
  assert (n / d < k) by (apply Z.div_lt_upper_bound; lia). lia.
Qed.

Lemma rne_mono n n' d : 0 < d -> n <= n' -> rne n d <= rne n' d.
Proof.
  intros Hd H.
  pose proof (Z.div_le_mono n n' d Hd H) as Hq.
  pose proof (rne_floor_ceil n d Hd). pose proof (rne_floor_ceil n' d Hd).
  destruct (Z.eq_dec (n / d) (n' / d)) as [E|NE]; [|lia].
  assert (n mod d <= n' mod d).
  { rewrite !Z.mod_eq by lia. rewrite E. lia. }
  destruct (rne_cases n d Hd) as [[? ->]|[[? ->]|[? ->]]];
    destruct (rne_cases n' d Hd) as [[? ->]|[[? ->]|[? ->]]];
    rewrite <- ?E; try lia; destruct (Z.even (n / d)); lia.
Qed.

Lemma rne_scale c n d : 0 < c -> 0 < d -> rne (c * n) (c * d) = rne n d.
Proof.
  intros Hc Hd. unfold rne.
  rewrite Z.mul_mod_distr_l by lia.
  rewrite Z.div_mul_cancel_l by lia.
  replace (2 * (c * (n mod d))) with (c * (2 * (n mod d))) by lia.
  rewrite <- Zmult_compare_compat_l by lia. reflexivity.
Qed.

Lemma rne_error n d : 0 < d ->
  2 * n - d <= 2 * (rne n d * d) <= 2 * n + d.
Proof.
  intros Hd. pose proof (Z.div_mod n d ltac:(lia)). pose proof (Z.mod_pos_bound n d Hd).
  destruct (rne_cases n d Hd) as [[? ->]|[[? ->]|[? ->]]]; try nia.
  destruct (Z.even (n / d)); nia.
Qed.

(** locations *)
Lemma new_location_spec b r : 0 < b -> 0 <= r < b ->
  new_location b r = if r =? 0 then loc_Exact else loc_Inexact (2 * r ?= b).
Proof.
  intros Hb Hr. unfold new_location, new_location_even, new_location_odd.
  destruct (Z.even b) eqn:Eb; [reflexivity|].
  destruct (r =? 0); [reflexivity|]. f_equal.
  assert (Z.odd b = true) by (rewrite <- Z.negb_even, Eb; reflexivity).
  apply Z.odd_spec in H. destruct H as [k Hk].
  destruct (Z.compare_spec (2 * r + 1) b); destruct (Z.compare_spec (2 * r) b); try reflexivity; lia.
Qed.

Lemma locates_of_loc q r d :
  0 < d -> 0 <= r < d ->
  locates (shr_record_of_loc q (if r =? 0 then loc_Exact else loc_Inexact (2 * r ?= d)))
          (q * d + r) d.
Proof.
  intros Hd Hr. unfold locates.
  destruct (Z.eqb_spec r 0) as [->|Hne]; simpl.
  - repeat split; try lia; intros; try discriminate; lia.
  - destruct (Z.compare_spec (2 * r) d); simpl;
      (split; [lia|]); (split; [lia|]); split; split; intros; try discriminate; try reflexivity; try lia.
Qed.

Lemma locates_round mrs n d :
  locates mrs n d ->
  shr_m mrs = n / d /\
  round_nearest_even (shr_m mrs) (loc_of_shr_record mrs) = rne n d.
Proof.
  destruct mrs as [m r s]. unfold locates. simpl. intros (Hd & Hb & Hr & Hs).
  assert (Hm : m = n / d) by (apply Z.div_unique_pos with (r := n - m * d); lia).
  split; [exact Hm|].
  assert (Hmod : n mod d = n - m * d) by (rewrite Z.mod_eq by lia; rewrite <- Hm; lia).
  unfold rne. rewrite Hmod, <- Hm.
  destruct (Z.compare_spec (2 * (n - m * d)) d).
  - assert (r = true) by (apply Hr; lia). subst r.
    destruct s; [|reflexivity]. assert (true = true) by reflexivity. apply Hs in H0. lia.
  - destruct r; [assert (true = true) by reflexivity; apply Hr in H0; lia|].
    destruct s; reflexivity.
  - assert (r = true) by (apply Hr; lia). subst r.
    assert (s = true) by (apply Hs; lia). subst s. reflexivity.
Qed.

Lemma shr_m_of_loc m l : shr_m (shr_record_of_loc m l) = m.
Proof. destruct l as [|[]]; reflexivity. Qed.

Lemma fexp_eq e : fexp 53 1024 e = Z.max (e - 53) (-1074).
Proof. reflexivity. Qed.

Lemma shr_fexp_spec m e l n d :
  0 <= m -> locates (shr_record_of_loc m l) n d ->
  exists mrs,
    shr_fexp 53 1024 m e l = (mrs, Z.max e (fexp 53 1024 (Zdigits2 m + e))) /\
    locates mrs n (d * 2 ^ (Z.max e (fexp 53 1024 (Zdigits2 m + e)) - e)) /\
    shr_m mrs = m / 2 ^ (Z.max e (fexp 53 1024 (Zdigits2 m + e)) - e).
Proof.
  intros Hm H. unfold shr_fexp, shr.
  set (f := fexp 53 1024 (Zdigits2 m + e)).
  destruct (f - e) as [|p|p] eqn:Ek.
  - exists (shr_record_of_loc m l).
    replace (Z.max e f) with e by lia. rewrite Z.sub_diag, Z.mul_1_r, Z.div_1_r.
    rewrite shr_m_of_loc. auto.
  - exists (SpecFloat.iter_pos shr_1 p (shr_record_of_loc m l)).
    replace (Z.max e f) with (e + Z.pos p) by lia.
    replace (e + Z.pos p - e) with (Z.pos p) by lia.
    destruct (locates_iter_shr p (shr_record_of_loc m l) n d) as [H1 H2]; auto.
    { rewrite shr_m_of_loc; lia. }
    rewrite shr_m_of_loc in H2. auto.
  - exists (shr_record_of_loc m l).
    replace (Z.max e f) with e by lia. rewrite Z.sub_diag, Z.mul_1_r, Z.div_1_r.
    rewrite shr_m_of_loc. auto.
Qed.

Lemma locates_exact m : locates (shr_record_of_loc m loc_Exact) m 1.
Proof. unfold locates; simpl. repeat split; intros; try discriminate; lia. Qed.

(** The rounding step shared by all operations, on a located quotient. *)
Lemma binary_round_aux_spec m e l n d :
  0 <= m -> locates (shr_record_of_loc m l) n d ->
  binary_round_aux 53 1024 false m e l =
    let E1 := Z.max e (fexp 53 1024 (Zdigits2 m + e)) in
    let m1 := rne n (d * 2 ^ (E1 - e)) in
    let E2 := Z.max E1 (fexp 53 1024 (Zdigits2 m1 + E1)) in
    match m1 / 2 ^ (E2 - E1) with
    | Z0 => S754_zero false
    | Zpos p => if E2 <=? 971 then S754_finite false p E2 else S754_infinity false
    | Zneg _ => S754_nan
    end.
Proof.
  intros Hm H. unfold binary_round_aux.
  destruct (shr_fexp_spec m e l n d Hm H) as (mrs1 & -> & Hloc1 & Hm1).
  destruct (locates_round _ _ _ Hloc1) as [Hq1 ->].
  set (E1 := Z.max e (fexp 53 1024 (Zdigits2 m + e))) in *.
  set (m1 := rne n (d * 2 ^ (E1 - e))).
  assert (0 <= m1).
  { unfold m1. apply rne_ge_int; [apply Hloc1|].
    destruct Hloc1 as (? & ? & _). destruct H as (? & ? & _).
    rewrite shr_m_of_loc in H2. nia. }
  destruct (shr_fexp_spec m1 E1 loc_Exact m1 1 H0 (locates_exact m1)) as (mrs2 & -> & _ & ->).
  reflexivity.
Qed.

Lemma div_eucl_eq a b : Z.div_eucl a b = (a / b, a mod b).
Proof. unfold Z.div, Z.modulo. destruct (Z.div_eucl a b); reflexivity. Qed.

Lemma SFdiv_core_spec a b :
  0 < a -> 0 < b ->
  let s := - Z.min (fexp 53 1024 (Zdigits2 a - Zdigits2 b)) 0 in
  SFdiv_core_binary 53 1024 a 0 b 0 =
    ((a * 2 ^ s) / b, - s, new_location b ((a * 2 ^ s) mod b)).
Proof.
  intros Ha Hb s. unfold SFdiv_core_binary.
  rewrite !Z.add_0_r, Z.sub_0_r. fold s.
  replace (0 - Z.min (fexp 53 1024 (Zdigits2 a - Zdigits2 b)) 0) with s by (unfold s; lia).
  replace (Z.min (fexp 53 1024 (Zdigits2 a - Zdigits2 b)) 0) with (- s) by (unfold s; lia).
  assert (Hs : 0 <= s) by (unfold s; lia).
  clearbody s.
  assert (Hm : match s with Z.pos _ => Z.shiftl a s | 0 => a | Z.neg _ => 0 end = a * 2 ^ s).
  { destruct s as [|p|p]; [rewrite Z.pow_0_r; lia| |lia].
    rewrite Z.shiftl_mul_pow2 by lia. reflexivity. }
  rewrite Hm, div_eucl_eq. reflexivity.
Qed.

Lemma pow2_pos k : 0 < 2 ^ k \/ k < 0.
Proof. destruct (Z_lt_le_dec k 0); [right; lia|left; apply Z.pow_pos_nonneg; lia]. Qed.

Lemma digits_div_scale n b t :
  0 < b -> 1 <= n / b -> 0 <= t ->
  Zdigits2 ((n * 2 ^ t) / b) = Zdigits2 (n / b) + t.
Proof.
  intros Hb Hq Ht.
  pose proof (Zdigits2_bounds (n / b) ltac:(lia)) as [Hlo Hhi].
  pose proof (Zdigits2_pos (n / b) ltac:(lia)) as Hd.
  set (dq := Zdigits2 (n / b)) in *.
  assert (H2t : 0 < 2 ^ t) by (apply Z.pow_pos_nonneg; lia).
  pose proof (Z.div_mod n b ltac:(lia)). pose proof (Z.mod_pos_bound n b Hb).
  set (q := n / b) in *. set (lo := 2 ^ (dq - 1)) in *. set (hi := 2 ^ dq) in *.
  assert (b * lo <= n) by nia.
  assert (n < b * hi) by nia.
  apply Zdigits2_unique; [|lia]. split.
  - replace (dq + t - 1) with ((dq - 1) + t) by lia. rewrite Z.pow_add_r by lia.
    fold lo. apply Z.div_le_lower_bound; [lia|].
    replace (b * (lo * 2 ^ t)) with ((b * lo) * 2 ^ t) by lia.
    apply Z.mul_le_mono_nonneg_r; lia.
  - rewrite Z.pow_add_r by lia. fold hi. apply Z.div_lt_upper_bound; [lia|].
    replace (b * (hi * 2 ^ t)) with ((b * hi) * 2 ^ t) by lia.
    apply Z.mul_lt_mono_pos_r; lia.
Qed.

Lemma cexp_agree a b :
  0 < a -> 0 < b ->
  let s := - Z.min (fexp 53 1024 (Zdigits2 a - Zdigits2 b)) 0 in
  0 <= s <= 1074 /\
  Z.max (- s) (fexp 53 1024 (Zdigits2 ((a * 2 ^ s) / b) + - s)) =
    Z.max (Zdigits2 ((a * 2 ^ 1074) / b) - 53) 0 - 1074.
Proof.
  intros Ha Hb s.
  pose proof (Zdigits2_bounds a Ha) as [Ha1 Ha2].
  pose proof (Zdigits2_bounds b Hb) as [Hb1 Hb2].
  pose proof (Zdigits2_pos a Ha) as Hda. pose proof (Zdigits2_pos b Hb) as Hdb.
  set (d1 := Zdigits2 a) in *. set (d2 := Zdigits2 b) in *.
  assert (Hs : 0 <= s <= 1074) by (unfold s; rewrite fexp_eq; lia).
  split; [exact Hs|]. rewrite !fexp_eq.
  destruct (Z.eq_dec s 1074) as [E|NE].
  - rewrite E. lia.
  - assert (Hs' : 53 - d1 + d2 <= s) by (unfold s in NE |- *; rewrite fexp_eq in *; lia).
    assert (H2s : 0 < 2 ^ s) by (apply Z.pow_pos_nonneg; lia).
    assert (Hq : 2 ^ 52 <= (a * 2 ^ s) / b).
    { apply Z.div_le_lower_bound; [lia|].
      assert (2 ^ 52 * 2 ^ d2 <= 2 ^ (d1 - 1) * 2 ^ s).
      { rewrite <- !Z.pow_add_r by lia. apply Z.pow_le_mono_r; lia. }
      assert (2 ^ (d1 - 1) * 2 ^ s <= a * 2 ^ s) by (apply Z.mul_le_mono_nonneg_r; lia).
      assert (b * 2 ^ 52 <= 2 ^ d2 * 2 ^ 52) by (apply Z.mul_le_mono_nonneg_r; lia).
      lia. }
    assert (Hdq : 53 <= Zdigits2 ((a * 2 ^ s) / b)).
    { destruct (Z_lt_le_dec (Zdigits2 (a * 2 ^ s / b)) 53) as [Hlt|]; [|lia].
      assert (Zdigits2 (a * 2 ^ s / b) <= 52) as Hle by lia.
      apply Zdigits2_le_iff in Hle; lia. }
    replace (a * 2 ^ 1074) with ((a * 2 ^ s) * 2 ^ (1074 - s)).
    2:{ rewrite <- Z.mul_assoc, <- Z.pow_add_r by lia. do 2 f_equal. lia. }
    assert (1 <= a * 2 ^ s / b) by (pose proof (Z.pow_pos_nonneg 2 52); lia).
    rewrite (digits_div_scale (a * 2 ^ s) b (1074 - s)) by lia. lia.
Qed.

(** Division of two positive integers, taken as exact operands: the quotient
    scaled by 2^1074 and rounded to 53 significant bits. *)
Theorem SFdiv_exact_operands a b :
  0 < a -> 0 < b ->
  SFdiv 53 1024 (Z2SF a) (Z2SF b) =
    let A := a * 2 ^ 1074 in
    let g := Z.max (Zdigits2 (A / b) - 53) 0 in
    let m1 := rne A (b * 2 ^ g) in
    let E1 := g - 1074 in
    let E2 := Z.max E1 (fexp 53 1024 (Zdigits2 m1 + E1)) in
    match m1 / 2 ^ (E2 - E1) with
    | Z0 => S754_zero false
    | Zpos p => if E2 <=? 971 then S754_finite false p E2 else S754_infinity false
    | Zneg _ => S754_nan
    end.
Proof.
  intros Ha Hb.
  destruct a as [|pa|pa]; try lia. destruct b as [|pb|pb]; try lia.
  simpl Z2SF. unfold SFdiv.
  rewrite (SFdiv_core_spec (Z.pos pa) (Z.pos pb) Ha Hb).
  destruct (cexp_agree (Z.pos pa) (Z.pos pb) Ha Hb) as [Hs HE].
  set (s := - Z.min (fexp 53 1024 (Zdigits2 (Z.pos pa) - Zdigits2 (Z.pos pb))) 0) in *.
  set (a := Z.pos pa) in *. set (b := Z.pos pb) in *.
  assert (H2s : 0 < 2 ^ s) by (apply Z.pow_pos_nonneg; lia).
  pose proof (Z.mod_pos_bound (a * 2 ^ s) b Hb) as Hr.
  rewrite new_location_spec by lia.
  assert (Hq0 : 0 <= a * 2 ^ s / b) by (apply Z.div_pos; lia).
  pose proof (locates_of_loc (a * 2 ^ s / b) ((a * 2 ^ s) mod b) b Hb Hr) as Hloc.
  replace (a * 2 ^ s / b * b + (a * 2 ^ s) mod b) with (a * 2 ^ s) in Hloc.
  2:{ pose proof (Z.div_mod (a * 2 ^ s) b ltac:(lia)). lia. }
  simpl xorb.
  rewrite (binary_round_aux_spec _ (- s) _ _ _ Hq0 Hloc).
  cbv zeta. rewrite HE.
  set (g := Z.max (Zdigits2 (a * 2 ^ 1074 / b) - 53) 0) in *.
  assert (Hg : 0 <= g) by (unfold g; lia).
  assert (HEs : 0 <= g - 1074 + s) by lia.
  replace (g - 1074 - - s) with (g - 1074 + s) by lia.
  assert (Hrne : rne (a * 2 ^ s) (b * 2 ^ (g - 1074 + s)) = rne (a * 2 ^ 1074) (b * 2 ^ g)).
  { rewrite <- (rne_scale (2 ^ (1074 - s)) (a * 2 ^ s) (b * 2 ^ (g - 1074 + s))).
    - f_equal.
      + replace (2 ^ (1074 - s) * (a * 2 ^ s)) with (a * (2 ^ s * 2 ^ (1074 - s))) by lia.
        rewrite <- Z.pow_add_r by lia. do 2 f_equal. lia.
      + replace (2 ^ (1074 - s) * (b * 2 ^ (g - 1074 + s)))
          with (b * (2 ^ (g - 1074 + s) * 2 ^ (1074 - s))) by lia.
        rewrite <- Z.pow_add_r by lia. do 2 f_equal. lia.
    - apply Z.pow_pos_nonneg; lia.
    - apply Z.mul_pos_pos; [lia|apply Z.pow_pos_nonneg; lia]. }
  rewrite Hrne. reflexivity.
Qed.

Lemma pow2_gt0 k : 0 <= k -> 0 < 2 ^ k.
Proof. intros; apply Z.pow_pos_nonneg; lia. Qed.

Lemma round_mantissa A b :
  0 <= A -> 0 < b ->
  let g := Z.max (Zdigits2 (A / b) - 53) 0 in
  let m1 := rne A (b * 2 ^ g) in
  let E1 := g - 1074 in
  let E2 := Z.max E1 (fexp 53 1024 (Zdigits2 m1 + E1)) in
  0 <= m1 /\ 0 <= E2 - E1 /\ E2 <= E1 + 1 /\ m1 / 2 ^ (E2 - E1) * 2 ^ (E2 - E1) = m1.
Proof.
  intros HA Hb g m1 E1 E2.
  assert (Hg : 0 <= g) by (unfold g; lia).
  pose proof (pow2_gt0 g Hg) as H2g.
  assert (HD : 0 < b * 2 ^ g) by (apply Z.mul_pos_pos; lia).
  assert (Hq : 0 <= A / b) by (apply Z.div_pos; lia).
  assert (Hm0 : 0 <= m1) by (apply rne_ge_int; lia).
  assert (Hq1 : A / (b * 2 ^ g) < 2 ^ 53).
  { rewrite <- Z.div_div by lia.
    apply Z.div_lt_upper_bound; [lia|]. rewrite <- Z.pow_add_r by lia.
    assert (Zdigits2 (A / b) <= g + 53) as Hle by (unfold g; lia).
    apply Zdigits2_le_iff in Hle; lia. }
  assert (Hm1 : m1 <= 2 ^ 53) by (pose proof (rne_floor_ceil A (b * 2 ^ g) HD); fold m1 in H; lia).
  split; [exact Hm0|].
  destruct (Z.eq_dec m1 (2 ^ 53)) as [E|NE].
  - assert (Zdigits2 m1 = 54) as Hd.
    { apply Zdigits2_unique; [|lia]. rewrite E. change (54 - 1) with 53.
      split; [lia|]. apply Z.pow_lt_mono_r; lia. }
    assert (E2 = E1 + 1) as HE2 by (unfold E2; rewrite fexp_eq, Hd; unfold E1; lia).
    rewrite HE2. replace (E1 + 1 - E1) with 1 by lia.
    repeat split; try lia. rewrite E. reflexivity.
  - assert (Zdigits2 m1 <= 53) as Hd by (apply Zdigits2_le_iff; lia).
    assert (E2 = E1) as HE2 by (unfold E2; rewrite fexp_eq; unfold E1; lia).
    rewrite HE2, Z.sub_diag. rewrite Z.pow_0_r, Z.div_1_r. lia.
Qed.

Lemma int_truediv_zero b : 0 < b -> int_truediv 0 b = Ok 0.
Proof.
  intros Hb. unfold int_truediv, truediv.
  destruct b as [|p|p]; try lia. reflexivity.
Qed.

Lemma trunc_mag_scaled p E :
  - 1074 <= E -> trunc_mag p E = (Z.pos p * 2 ^ (E + 1074)) / 2 ^ 1074.
Proof.
  intros HE. unfold trunc_mag. destruct (Z.leb_spec 0 E).
  - rewrite Z.pow_add_r by lia. rewrite Z.mul_assoc, Z.div_mul; [reflexivity|].
    pose proof (pow2_gt0 1074); lia.
  - assert (2 ^ 1074 = 2 ^ (- E) * 2 ^ (E + 1074)) as ->
      by (rewrite <- Z.pow_add_r by lia; f_equal; lia).
    rewrite Z.div_mul_cancel_r; [reflexivity| |];
      [pose proof (pow2_gt0 (- E))|pose proof (pow2_gt0 (E + 1074))]; lia.
Qed.

Lemma round53_zero b : 0 < b -> round53 0 b = 0.
Proof.
  intros Hb. unfold round53. rewrite Z.div_0_l by lia.
  change (Z.max (Zdigits2 0 - 53) 0) with 0.
  rewrite Z.pow_0_r, !Z.mul_1_r.
  exact (rne_exact 0 b Hb).
Qed.

(** [int(a / b)] in closed form, when it returns. *)
Lemma int_truediv_Ok a b z :
  0 <= a -> 0 < b -> int_truediv a b = Ok z ->
  z = round53 (a * 2 ^ 1074) b / 2 ^ 1074.
Proof.
  intros Ha Hb.
  destruct (Z.eq_dec a 0) as [->|Hne].
  { rewrite int_truediv_zero by lia. intros [= <-].
    rewrite Z.mul_0_l, round53_zero by lia. reflexivity. }
  unfold int_truediv, truediv.
  destruct (Z.eqb_spec b 0); [lia|].
  change prec with 53. change emax with 1024.
  rewrite SFdiv_exact_operands by lia. cbv zeta.
  destruct (round_mantissa (a * 2 ^ 1074) b) as (Hm0 & HE0 & HE1 & Hm);
    [pose proof (pow2_gt0 1074); nia|lia|].
  unfold round53.
  set (g := Z.max (Zdigits2 (a * 2 ^ 1074 / b) - 53) 0) in *.
  set (m1 := rne (a * 2 ^ 1074) (b * 2 ^ g)) in *.
  set (E1 := g - 1074) in *.
  set (E2 := Z.max E1 (fexp 53 1024 (Zdigits2 m1 + E1))) in *.
  assert (Hg : 0 <= g) by (unfold g; lia).
  destruct (m1 / 2 ^ (E2 - E1)) as [|p|p] eqn:Ep.
  - simpl. intros [= <-]. rewrite <- Hm. simpl. reflexivity.
  - destruct (E2 <=? 971); simpl; [|discriminate].
    intros [= <-]. rewrite trunc_mag_scaled by lia.
    f_equal. rewrite <- Hm. rewrite <- Z.mul_assoc, <- Z.pow_add_r by lia.
    do 2 f_equal. lia.
  - simpl. discriminate.
Qed.


Lemma round53_mono A A' b : 0 <= A <= A' -> 0 < b -> round53 A b <= round53 A' b.
Proof.
  intros [HA HAA] Hb. unfold round53.
  assert (Hq : 0 <= A / b) by (apply Z.div_pos; lia).
  assert (Hqq : A / b <= A' / b) by (apply Z.div_le_mono; lia).
  pose proof (Zdigits2_mono (A / b) (A' / b) ltac:(lia)) as Hd.
  pose proof (Zdigits2_nonneg (A / b)) as Hd0.
  set (D := Zdigits2 (A / b)) in *. set (D' := Zdigits2 (A' / b)) in *.
  set (g := Z.max (D - 53) 0). set (g' := Z.max (D' - 53) 0).
  assert (Hg : 0 <= g) by (unfold g; lia).
  assert (Hg' : 0 <= g') by (unfold g'; lia).
  pose proof (pow2_gt0 g Hg) as H2g. pose proof (pow2_gt0 g' Hg') as H2g'.
  assert (HDg : 0 < b * 2 ^ g) by (apply Z.mul_pos_pos; lia).
  assert (HDg' : 0 < b * 2 ^ g') by (apply Z.mul_pos_pos; lia).
  destruct (Z.eq_dec g g') as [E|NE].
  - rewrite <- E. apply Z.mul_le_mono_nonneg_r; [lia|]. apply rne_mono; lia.
  - assert (Hlt : g < g') by (unfold g, g' in *; lia).
    assert (HD' : g' = D' - 53) by (unfold g, g' in *; lia).
    assert (HDD : D <= D' - 1) by (unfold g, g' in *; lia).
    (* the smaller quotient stays below 2^(D'-1), the larger one is at least that *)
    assert (Hup : A / b < 2 ^ (D' - 1)) by (apply Zdigits2_le_iff; unfold D in *; lia).
    assert (Hlo : 2 ^ (D' - 1) <= A' / b).
    { apply (Zdigits2_bounds (A' / b)).
      destruct (Z.eq_dec (A' / b) 0) as [E0|]; [|lia].
      unfold D' in HD'. rewrite E0 in HD'. simpl in HD'. lia. }
    pose proof (pow2_gt0 (D' - 1) ltac:(lia)) as H2D.
    pose proof (Z.div_mod A b ltac:(lia)). pose proof (Z.mod_pos_bound A b Hb).
    pose proof (Z.div_mod A' b ltac:(lia)). pose proof (Z.mod_pos_bound A' b Hb).
    set (P := 2 ^ (D' - 1)) in *.
    assert (HA1 : A <= b * P) by nia.
    assert (HA2 : b * P <= A') by nia.
    assert (HP1 : P = 2 ^ (D' - 1 - g) * 2 ^ g)
      by (unfold P; rewrite <- Z.pow_add_r by lia; f_equal; lia).
    assert (HP2 : P = 2 ^ 52 * 2 ^ g')
      by (unfold P; rewrite <- Z.pow_add_r by lia; f_equal; lia).
    assert (rne A (b * 2 ^ g) <= 2 ^ (D' - 1 - g)).
    { apply rne_le_int; [lia|].
      replace (2 ^ (D' - 1 - g) * (b * 2 ^ g)) with (b * (2 ^ (D' - 1 - g) * 2 ^ g)) by lia.
      rewrite <- HP1. lia. }
    assert (2 ^ 52 <= rne A' (b * 2 ^ g')).
    { apply rne_ge_int; [lia|].
      replace (2 ^ 52 * (b * 2 ^ g')) with (b * (2 ^ 52 * 2 ^ g')) by lia.
      rewrite <- HP2. lia. }
    transitivity P.
    + rewrite HP1. apply Z.mul_le_mono_nonneg_r; lia.
    + rewrite HP2. apply Z.mul_le_mono_nonneg_r; lia.
Qed.

(** Below 2^53 the rounded quotient has the integer part of the exact one. *)
Lemma round53_small a b :
  0 < a < 2 ^ 53 -> 0 < b < 2 ^ 53 ->
  round53 (a * 2 ^ 1074) b / 2 ^ 1074 = a / b /\
  Z.max (Zdigits2 (a * 2 ^ 1074 / b) - 53) 0 <= 1074.
Proof.
  intros Ha Hb.
  pose proof (pow2_gt0 1074 ltac:(lia)) as HU. set (U := 2 ^ 1074) in *.
  assert (HA : 0 < a * U) by nia.
  assert (Hq : 0 <= a * U / b) by (apply Z.div_pos; lia).
  assert (HqA : a * U / b <= a * U) by (apply Z.div_le_upper_bound; nia).
  assert (H53U : 2 ^ 53 * U = 2 ^ 1127) by (unfold U; rewrite <- Z.pow_add_r by lia; reflexivity).
  assert (Hdig : Zdigits2 (a * U / b) <= 1127).
  { apply Zdigits2_le_iff; [lia|lia|]. rewrite <- H53U. nia. }
  unfold round53.
  set (g := Z.max (Zdigits2 (a * U / b) - 53) 0) in *.
  assert (Hg : 0 <= g <= 1074) by (unfold g; lia).
  split; [|lia].
  pose proof (pow2_gt0 g ltac:(lia)) as H2g.
  assert (HD : 0 < b * 2 ^ g) by (apply Z.mul_pos_pos; lia).
  set (m1 := rne (a * U) (b * 2 ^ g)).
  assert (HUg : U = 2 ^ (1074 - g) * 2 ^ g)
    by (unfold U; rewrite <- Z.pow_add_r by lia; f_equal; lia).
  pose proof (pow2_gt0 (1074 - g) ltac:(lia)) as H2c.
  (* the divisor of the rounding step is below 2U *)
  assert (Hsmall : b * 2 ^ g < 2 * U).
  { destruct (Z.eq_dec g 0) as [E|NE].
    - rewrite E, Z.pow_0_r.
      assert (2 ^ 53 <= U) by (unfold U; apply Z.pow_le_mono_r; lia). lia.
    - assert (Hd : Zdigits2 (a * U / b) = g + 53) by (unfold g in *; lia).
      assert (0 < a * U / b).
      { destruct (Z.eq_dec (a * U / b) 0) as [E0|]; [|lia].
        rewrite E0 in Hd. simpl in Hd. lia. }
      pose proof (Zdigits2_bounds (a * U / b) H) as [Hlo _]. rewrite Hd in Hlo.
      replace (g + 53 - 1) with (g + 52) in Hlo by lia.
      rewrite Z.pow_add_r in Hlo by lia.
      pose proof (Z.div_mod (a * U) b ltac:(lia)). pose proof (Z.mod_pos_bound (a * U) b ltac:(lia)).
      assert (b * (2 ^ g * 2 ^ 52) <= a * U) by nia.
      assert (a * U < 2 ^ 53 * U) by nia.
      change (2 ^ 53) with (2 * 2 ^ 52) in H3.
      assert (0 < 2 ^ 52) by (apply pow2_gt0; lia).
      nia. }
  pose proof (Z.div_mod a b ltac:(lia)) as Hdm. pose proof (Z.mod_pos_bound a b ltac:(lia)) as Hmod.
  set (q := a / b) in *.
  assert (Hlow : q * U <= m1 * 2 ^ g).
  { assert (q * 2 ^ (1074 - g) <= m1).
    { apply rne_ge_int; [lia|].
      replace (q * 2 ^ (1074 - g) * (b * 2 ^ g)) with (q * b * (2 ^ (1074 - g) * 2 ^ g)) by lia.
      rewrite <- HUg. nia. }
    rewrite HUg. nia. }
  assert (Hupp : m1 * 2 ^ g < (q + 1) * U).
  { pose proof (rne_error (a * U) (b * 2 ^ g) HD) as [_ He]. fold m1 in He.
    assert (2 * (m1 * 2 ^ g) * b < 2 * ((q + 1) * U) * b); [|nia].
    assert ((a + 1) * U <= (q + 1) * b * U) by nia.
    nia. }
  symmetry. apply Z.div_unique with (r := m1 * 2 ^ g - q * U); lia.
Qed.

Lemma int_truediv_small a b :
  0 <= a < 2 ^ 53 -> 0 < b < 2 ^ 53 -> int_truediv a b = Ok (a / b).
Proof.
  intros Ha Hb.
  destruct (Z.eq_dec a 0) as [->|Hne].
  { rewrite int_truediv_zero by lia. rewrite Z.div_0_l by lia. reflexivity. }
  destruct (round53_small a b ltac:(lia) Hb) as [Hv Hg].
  destruct (int_truediv a b) as [z|e] eqn:E.
  - apply int_truediv_Ok in E; try lia. rewrite E, Hv. reflexivity.
  - exfalso. revert E. unfold int_truediv, truediv.
    destruct (Z.eqb_spec b 0); [lia|].
    change prec with 53. change emax with 1024.
    rewrite SFdiv_exact_operands by lia. cbv zeta.
    destruct (round_mantissa (a * 2 ^ 1074) b) as (Hm0 & HE0 & HE1 & Hm);
      [pose proof (pow2_gt0 1074); nia|lia|].
    set (g := Z.max (Zdigits2 (a * 2 ^ 1074 / b) - 53) 0) in *.
    set (m1 := rne (a * 2 ^ 1074) (b * 2 ^ g)) in *.
    set (E1 := g - 1074) in *.
    set (E2 := Z.max E1 (fexp 53 1024 (Zdigits2 m1 + E1))) in *.
    destruct (m1 / 2 ^ (E2 - E1)) as [|p|p] eqn:Ep; simpl; try discriminate.
    + destruct (Z.leb_spec E2 971); simpl; [discriminate|]. unfold E1 in *. lia.
    + exfalso. assert (0 <= m1 / 2 ^ (E2 - E1)); [|lia].
      apply Z.div_pos; [lia|]. apply pow2_gt0; lia.
Qed.

Lemma int_truediv_mono a a' b x x' :
  0 <= a <= a' -> 0 < b ->
  int_truediv a b = Ok x -> int_truediv a' b = Ok x' -> x <= x'.
Proof.
  intros Ha Hb H1 H2.
  apply int_truediv_Ok in H1; try lia. apply int_truediv_Ok in H2; try lia.
  subst. pose proof (pow2_gt0 1074 ltac:(lia)).
  apply Z.div_le_mono; [lia|]. apply round53_mono; [nia|lia].
Qed.

Lemma int_truediv_nonneg a b x :
  0 <= a -> 0 < b -> int_truediv a b = Ok x -> 0 <= x.
Proof.
  intros Ha Hb H.
  apply (int_truediv_mono 0 a b 0 x); auto; try lia. apply int_truediv_zero; lia.
Qed.


(** ** What the methods leave unchanged *)

Lemma load_dataset_batch_Done env batch s s' :
  load_dataset_batch env batch s = Done s' ->
  exists f rows lo hi,
    files env !! loadpath s = Some f /\
    h5_datasets f !! h5key s = Some rows /\
    batch_bounds (Z.of_nat (length rows)) (num_batches s) batch = Ok (lo, hi) /\
    read_fault env (h5key s) lo hi = None /\
    s' = set_dataset (slice rows lo hi) s.
Proof.
  unfold load_dataset_batch, open_read.
  destruct (files env !! loadpath s) as [f|] eqn:E1; [|discriminate].
  destruct (h5_datasets f !! h5key s) as [rows|] eqn:E2; [|discriminate].
  destruct (batch_bounds _ _ _) as [[lo hi]|] eqn:E3; [|discriminate].
  destruct (read_fault env (h5key s) lo hi) eqn:E4; [discriminate|].
  intros [= <-]. exists f, rows, lo, hi. repeat split; auto.
Qed.

Lemma load_dataset_batch_final env batch s :
  final (load_dataset_batch env batch s) = s \/
  exists a, final (load_dataset_batch env batch s) = set_dataset a s.
Proof.
  unfold load_dataset_batch.
  destruct (open_read env s) as [f|]; [|left; reflexivity].
  destruct (h5_datasets f !! h5key s) as [rows|]; [|left; reflexivity].
  destruct (batch_bounds _ _ _) as [[lo hi]|]; [|left; reflexivity].
  destruct (read_fault env (h5key s) lo hi); [left; reflexivity|].
  right. eexists. reflexivity.
Qed.

Lemma same_probe_refl s : same_probe s s.
Proof. repeat split. Qed.

Lemma same_probe_sym s1 s2 : same_probe s1 s2 -> same_probe s2 s1.
Proof. intros [[? ?] ?]. repeat split; congruence. Qed.

Lemma same_probe_trans s1 s2 s3 : same_probe s1 s2 -> same_probe s2 s3 -> same_probe s1 s3.
Proof. intros [[? ?] ?] [[? ?] ?]. repeat split; congruence. Qed.

Lemma load_dataset_batch_keeps env batch s :
  same_probe s (final (load_dataset_batch env batch s)) /\
  savepath (final (load_dataset_batch env batch s)) = savepath s.
Proof.
  destruct (load_dataset_batch_final env batch s) as [->|[a ->]]; repeat split.
Qed.

Lemma get_linear_offset_keeps env s :
  same_probe s (final (get_linear_offset env s)) /\
  savepath (final (get_linear_offset env s)) = savepath s /\
  dataset (final (get_linear_offset env s)) = dataset s.
Proof.
  unfold get_linear_offset. destruct (Py.bind _ _); repeat split.
Qed.

Lemma get_linear_scale_keeps env s :
  same_probe s (final (get_linear_scale env s)) /\
  savepath (final (get_linear_scale env s)) = savepath s /\
  dataset (final (get_linear_scale env s)) = dataset s.
Proof.
  unfold get_linear_scale. destruct (Py.bind _ _); repeat split.
Qed.

Lemma apply_correction_keeps env s :
  same_probe s (final (apply_correction env s)) /\
  savepath (final (apply_correction env s)) = savepath s.
Proof.
  unfold apply_correction.
  destruct (linear_scale s), (dataset s), (linear_offset s); try (repeat split; fail).
  destruct (arith_fault env _); repeat split.
Qed.

Lemma final_and_then {S} (o : outcome S) k :
  final (and_then o k) = match o with Done s => final (k s) | Raised _ s => s end.
Proof. destruct o; reflexivity. Qed.

Lemma linear_correction_keeps env s :
  same_probe s (final (linear_correction env s)) /\
  savepath (final (linear_correction env s)) = savepath s.
Proof.
  unfold linear_correction.
  pose proof (get_linear_offset_keeps env s) as (H1 & H1' & _).
  destruct (get_linear_offset env s) as [s1|e s1]; simpl in *; [|auto].
  pose proof (get_linear_scale_keeps env s1) as (H2 & H2' & _).
  destruct (get_linear_scale env s1) as [s2|e s2]; simpl in *.
  - pose proof (apply_correction_keeps env s2) as (H3 & H3').
    split; [eauto using same_probe_trans|congruence].
  - split; [eauto using same_probe_trans|congruence].
Qed.

Lemma probe_keeps env corr s :
  same_probe s (final (probe env corr s)) /\
  savepath (final (probe env corr s)) = savepath s.
Proof.
  unfold probe. rewrite final_and_then.
  pose proof (load_dataset_batch_keeps env 0 s) as (H1 & H1').
  destruct (load_dataset_batch env 0 s) as [s1|e s1]; simpl in *; [|auto].
  destruct corr; simpl; [|auto].
  pose proof (linear_correction_keeps env s1) as (H2 & H2').
  split; [eauto using same_probe_trans|congruence].
Qed.

(** ** The outcome of a probe depends on the request only *)

Lemma load_dataset_batch_same env batch s1 s2 :
  same_probe s1 s2 ->
  raised (load_dataset_batch env batch s1) = raised (load_dataset_batch env batch s2) /\
  (raised (load_dataset_batch env batch s1) = None ->
   dataset (final (load_dataset_batch env batch s1)) =
   dataset (final (load_dataset_batch env batch s2))).
Proof.
  intros [[Hl Hk] Hn]. unfold load_dataset_batch, open_read.
  rewrite <- Hl, <- Hk, <- Hn.
  destruct (files env !! loadpath s1) as [f|]; [|split; [reflexivity|discriminate]].
  destruct (h5_datasets f !! h5key s1) as [rows|]; [|split; [reflexivity|discriminate]].
  destruct (batch_bounds _ _ _) as [[lo hi]|]; [|split; [reflexivity|discriminate]].
  destruct (read_fault env (h5key s1) lo hi); split; try reflexivity; discriminate.
Qed.

Lemma linear_correction_same env s1 s2 :
  same_probe s1 s2 -> dataset s1 = dataset s2 ->
  raised (linear_correction env s1) = raised (linear_correction env s2).
Proof.
  intros [[Hl Hk] Hn] Hd.
  unfold linear_correction, get_linear_offset, get_linear_scale, open_read.
  rewrite <- Hl, <- Hk.
  destruct (files env !! loadpath s1) as [f|]; simpl; [|reflexivity].
  destruct (read_attribute f _ (offset_attribute _)) as [off|]; simpl; [|reflexivity].
  rewrite <- Hl, <- Hk.
  destruct (files env !! loadpath s1) as [f'|]; simpl; [|reflexivity].
  destruct (read_attribute f' _ (scale_attribute _)) as [sc|]; simpl; [|reflexivity].
  unfold apply_correction; simpl. rewrite <- Hd.
  destruct (dataset s1) as [a|]; [|reflexivity].
  destruct (arith_fault env a); reflexivity.
Qed.

Lemma probe_same env corr s1 s2 :
  same_probe s1 s2 -> raised (probe env corr s1) = raised (probe env corr s2).
Proof.
  intros H. unfold probe.
  destruct (load_dataset_batch_same env 0 s1 s2 H) as [Hr Hd].
  pose proof (load_dataset_batch_keeps env 0 s1) as [K1 _].
  pose proof (load_dataset_batch_keeps env 0 s2) as [K2 _].
  destruct (load_dataset_batch env 0 s1) as [a1|e1 a1];
    destruct (load_dataset_batch env 0 s2) as [a2|e2 a2]; simpl in *; try discriminate.
  - destruct corr; [|reflexivity].
    apply linear_correction_same; [|auto].
    eauto using same_probe_trans, same_probe_sym.
  - exact Hr.
Qed.

Lemma sizing_loop_same fuel env corr : forall s1 s2,
  same_probe s1 s2 ->
  sizing_result (sizing_loop fuel env corr s1) = sizing_result (sizing_loop fuel env corr s2).
Proof.
  induction fuel as [|fuel IH]; intros s1 s2 H; [reflexivity|]. simpl.
  pose proof (probe_same env corr s1 s2 H) as Hr.
  pose proof (probe_keeps env corr s1) as [K1 _].
  pose proof (probe_keeps env corr s2) as [K2 _].
  destruct (probe env corr s1) as [a1|e1 a1];
    destruct (probe env corr s2) as [a2|e2 a2]; simpl in *; try discriminate.
  - f_equal. f_equal. destruct K1 as [_ <-], K2 as [_ <-]. apply H.
  - injection Hr as <-. destruct (caught e1); [|reflexivity].
    apply IH.
    assert (same_probe a1 a2) as [Hq Hn]
      by eauto using same_probe_trans, same_probe_sym.
    split; [exact Hq|simpl; lia].
Qed.

(** C10.  [find_num_batches] sets the batch count to 1 before it probes:
    started from two states that name the same dataset of the same file,
    whatever batch count, loaded array or attributes an earlier key left in
    them, it reports the same batch count, or the same exception. *)
Theorem find_num_batches_ignores_prior_state fuel env corr s1 s2 :
  same_request s1 s2 ->
  sizing_result (find_num_batches fuel env corr s1) =
  sizing_result (find_num_batches fuel env corr s2).
Proof.
  intros H. unfold find_num_batches. apply sizing_loop_same.
  split; [exact H|reflexivity].
Qed.

(** ** The sizing loop *)

Lemma sizing_loop_step fuel env corr s :
  sizing_loop (S fuel) env corr s =
    match probe env corr s with
    | Done s' => Some (Done s')
    | Raised e s' =>
        if caught e
        then sizing_loop fuel env corr (set_num_batches (num_batches s + 1) s')
        else Some (Raised e s')
    end.
Proof.
  simpl. pose proof (probe_keeps env corr s) as [[_ Hn] _].
  destruct (probe env corr s) as [s'|e s']; [reflexivity|].
  simpl in Hn. rewrite Hn. reflexivity.
Qed.

(** While the probes fail with a caught exception the loop walks up the
    batch counts one by one. *)
Lemma sizing_loop_reaches env corr self k :
  (forall j, 1 <= j < k ->
     exists e, raised (probe env corr (set_num_batches j self)) = Some e /\ caught e = true) ->
  forall (n : nat) j s fuel,
    same_probe s (set_num_batches j self) ->
    1 <= j -> k - j = Z.of_nat n ->
    exists s_k,
      same_probe s_k (set_num_batches k self) /\
      sizing_loop (n + fuel) env corr s = sizing_loop fuel env corr s_k.
Proof.
  intros Hfail. induction n as [|n IH]; intros j s fuel Hs Hj Hk.
  - exists s. assert (j = k) as -> by lia. split; [exact Hs|reflexivity].
  - destruct (Hfail j ltac:(lia)) as (e & He & Hc).
    rewrite <- (probe_same env corr s _ Hs) in He.
    change (S n + fuel)%nat with (S (n + fuel)). rewrite sizing_loop_step.
    pose proof (probe_keeps env corr s) as [Hkeep _].
    destruct (probe env corr s) as [s'|e' s']; simpl in He; [discriminate|].
    injection He as ->. rewrite Hc.
    apply (IH (j + 1)); [|lia|lia].
    simpl in Hkeep. destruct Hs as [Hq Hn], Hkeep as [Hq' Hn'].
    split; [|simpl in *; lia].
    destruct Hq, Hq'. split; simpl in *; congruence.
Qed.

(** C1.  If the sizing probe (loading batch 0 at the current partitioning
    and, when correction is requested, correcting it) raises a caught
    exception, [ValueError] or [MemoryError], for every batch count below
    [k] and completes at [k], then [find_num_batches], run for at least [k]
    iterations, returns, and it returns with [num_batches = k]: the count
    starts at 1 and grows by 1 on each caught failure, so [k] is the least
    sufficient count. *)
Theorem find_num_batches_minimal env corr self k fuel :
  1 <= k ->
  (forall j, 1 <= j < k ->
     exists e, raised (probe env corr (set_num_batches j self)) = Some e /\ caught e = true) ->
  raised (probe env corr (set_num_batches k self)) = None ->
  (Z.to_nat k <= fuel)%nat ->
  exists s,
    find_num_batches fuel env corr self = Some (Done s) /\
    num_batches s = k /\ same_request s self.
Proof.
  intros Hk Hfail Hok Hfuel. unfold find_num_batches.
  destruct (sizing_loop_reaches env corr self k Hfail (Z.to_nat (k - 1)) 1
              (set_num_batches 1 self) (fuel - Z.to_nat (k - 1))%nat)
    as (s_k & Hs & Heq); [apply same_probe_refl|lia|lia|].
  replace (Z.to_nat (k - 1) + (fuel - Z.to_nat (k - 1)))%nat with fuel in Heq by lia.
  rewrite Heq.
  destruct (fuel - Z.to_nat (k - 1))%nat as [|m] eqn:Em; [lia|].
  rewrite sizing_loop_step.
  rewrite <- (probe_same env corr s_k _ Hs) in Hok.
  pose proof (probe_keeps env corr s_k) as [Hkeep _].
  destruct (probe env corr s_k) as [s'|e s']; simpl in Hok; [|discriminate].
  exists s'. split; [reflexivity|].
  simpl in Hkeep. destruct Hs as [[? ?] ?], Hkeep as [[? ?] ?]. simpl in *.
  repeat split; congruence.
Qed.

(** ** The main loop *)

Lemma save_dataset_keeps env corr batch w :
  data (final (save_dataset env corr batch w)) = data w.
Proof.
  unfold save_dataset.
  destruct (open_fault env _); [reflexivity|].
  destruct (dataset (data w)); [|reflexivity].
  destruct (write_fault env _ _) as [[? ?]|]; reflexivity.
Qed.

Lemma handle_batch_keeps env corr batch w :
  same_probe (data w) (data (final (handle_batch env corr batch w))) /\
  savepath (data (final (handle_batch env corr batch w))) = savepath (data w).
Proof.
  unfold handle_batch. rewrite final_and_then.
  pose proof (load_dataset_batch_keeps env batch (data w)) as [H1 H1'].
  destruct (load_dataset_batch env batch (data w)) as [s1|e s1]; simpl in *; [|auto].
  destruct corr.
  - rewrite final_and_then.
    pose proof (linear_correction_keeps env s1) as [H2 H2'].
    destruct (linear_correction env s1) as [s2|e s2]; simpl in *.
    + rewrite save_dataset_keeps. simpl.
      split; [eauto using same_probe_trans|congruence].
    + split; [eauto using same_probe_trans|congruence].
  - rewrite save_dataset_keeps. simpl. auto.
Qed.

Lemma for_batches_app env corr before after w :
  for_batches env corr (before ++ after) w =
  and_then (for_batches env corr before w) (for_batches env corr after).
Proof.
  revert w. induction before as [|b before IH]; intros w; [reflexivity|].
  simpl. destruct (handle_batch env corr b w) as [w1|e w1]; simpl; [apply IH|reflexivity].
Qed.

Lemma for_batches_keeps env corr batches : forall w,
  same_probe (data w) (data (final (for_batches env corr batches w))) /\
  savepath (data (final (for_batches env corr batches w))) = savepath (data w).
Proof.
  induction batches as [|b batches IH]; intros w; [split; [apply same_probe_refl|reflexivity]|].
  simpl. rewrite final_and_then.
  pose proof (handle_batch_keeps env corr b w) as [H1 H1'].
  destruct (handle_batch env corr b w) as [w1|e w1]; simpl in *; [|auto].
  destruct (IH w1) as [H2 H2'].
  split; [eauto using same_probe_trans|congruence].
Qed.

(** C7.  In the sizing loop a [ValueError] or a [MemoryError] raised by the
    probe, that is by the load or by the correction, is answered by one more
    batch and a retry; an exception of any other class, such as the
    [KeyError] of a missing key or attribute or the [OSError] of a file that
    cannot be opened, ends sizing at once and is passed on.  In the main loop
    every exception of a batch, [ValueError] and [MemoryError] included, ends
    the loop with that exception: the later batches are not run, nothing is
    retried and the batch count is unchanged. *)
Theorem errors_recovered_only_while_sizing env corr :
  (forall fuel s e s',
     probe env corr s = Raised e s' ->
     e = ValueError \/ e = MemoryError ->
     sizing_loop (S fuel) env corr s =
       sizing_loop fuel env corr (set_num_batches (num_batches s + 1) s')) /\
  (forall fuel s e s',
     probe env corr s = Raised e s' ->
     e <> ValueError -> e <> MemoryError ->
     sizing_loop (S fuel) env corr s = Some (Raised e s')) /\
  (forall before batch after w w1 e w',
     for_batches env corr before w = Done w1 ->
     handle_batch env corr batch w1 = Raised e w' ->
     for_batches env corr (before ++ batch :: after) w = Raised e w' /\
     num_batches (data w') = num_batches (data w)).
Proof.
  split; [|split].
  - intros fuel s e s' H [->| ->]; rewrite sizing_loop_step, H; reflexivity.
  - intros fuel s e s' H Hv Hm. rewrite sizing_loop_step, H.
    destruct e; try reflexivity; contradiction.
  - intros before batch after w w1 e w' H1 H2.
    rewrite for_batches_app, H1. simpl. rewrite H2. simpl. split; [reflexivity|].
    pose proof (for_batches_keeps env corr before w) as [[_ Ha] _].
    pose proof (handle_batch_keeps env corr batch w1) as [[_ Hb] _].
    rewrite H1 in Ha. rewrite H2 in Hb. simpl in *. congruence.
Qed.

(** ** Missing conversion attributes *)

Lemma linear_correction_missing env s f attrs :
  files env !! loadpath s = Some f ->
  h5_groups f !! parent_group (h5key s) = Some attrs ->
  attrs !! offset_attribute (h5key s) = None \/
  attrs !! scale_attribute (h5key s) = None ->
  exists name,
    raised (linear_correction env s) = Some (KeyError name) /\
    (name = offset_attribute (h5key s) \/ name = scale_attribute (h5key s)) /\
    attrs !! name = None.
Proof.
  intros Hf Hg Hmiss.
  unfold linear_correction, get_linear_offset, open_read, read_attribute.
  rewrite Hf. simpl. rewrite Hg.
  destruct (attrs !! offset_attribute (h5key s)) as [off|] eqn:Eo.
  - destruct Hmiss as [?|Hs]; [discriminate|].
    simpl. unfold get_linear_scale, open_read, read_attribute. simpl.
    rewrite Hf. simpl. rewrite Hg, Hs. simpl.
    exists (scale_attribute (h5key s)). auto.
  - simpl. exists (offset_attribute (h5key s)). auto.
Qed.

Lemma probe_load_raised env corr s e :
  raised (load_dataset_batch env 0 s) = Some e ->
  raised (probe env corr s) = Some e.
Proof.
  unfold probe. destruct (load_dataset_batch env 0 s); simpl; [discriminate|auto].
Qed.

Lemma probe_missing env s f attrs :
  files env !! loadpath s = Some f ->
  h5_groups f !! parent_group (h5key s) = Some attrs ->
  attrs !! offset_attribute (h5key s) = None \/
  attrs !! scale_attribute (h5key s) = None ->
  (exists e, raised (load_dataset_batch env 0 s) = Some e /\
             raised (probe env true s) = Some e) \/
  (raised (load_dataset_batch env 0 s) = None /\
   exists name,
     raised (probe env true s) = Some (KeyError name) /\
     (name = offset_attribute (h5key s) \/ name = scale_attribute (h5key s)) /\
     attrs !! name = None).
Proof.
  intros Hf Hg Hmiss. unfold probe.
  pose proof (load_dataset_batch_keeps env 0 s) as [[[Hl Hk] _] _].
  destruct (load_dataset_batch env 0 s) as [s1|e s1]; simpl in *.
  - right. split; [reflexivity|].
    rewrite Hl in Hf. rewrite Hk in Hg, Hmiss.
    destruct (linear_correction_missing env s1 f attrs Hf Hg Hmiss) as (name & H1 & H2 & H3).
    exists name. rewrite <- Hk in H2. auto.
  - left. eauto.
Qed.

Lemma sizing_loop_never_done env s0 f attrs :
  files env !! loadpath s0 = Some f ->
  h5_groups f !! parent_group (h5key s0) = Some attrs ->
  attrs !! offset_attribute (h5key s0) = None \/
  attrs !! scale_attribute (h5key s0) = None ->
  forall fuel s, same_request s s0 ->
    match sizing_loop fuel env true s with
    | Some (Done _) => False
    | _ => True
    end.
Proof.
  intros Hf Hg Hmiss. induction fuel as [|fuel IH]; intros s [Hl Hk]; [exact I|].
  rewrite sizing_loop_step.
  rewrite <- Hl in Hf. rewrite <- Hk in Hg, Hmiss.
  pose proof (probe_keeps env true s) as [[[Hl' Hk'] _] _].
  destruct (probe_missing env s f attrs Hf Hg Hmiss) as [(e & _ & He)|(_ & name & He & _)];
    destruct (probe env true s) as [s'|e' s']; simpl in He; try discriminate.
  - destruct (caught e'); [|exact I]. apply IH. split; simpl in *; congruence.
  - destruct (caught e'); [|exact I]. apply IH. split; simpl in *; congruence.
Qed.

(** C6.  With correction requested and the offset or the scale attribute
    absent from the parent group, [handle_dataset] never completes and never
    creates or changes a file; once the probe's load succeeds, at batch
    count [k] after caught failures below [k], it ends with the [KeyError]
    of the missing attribute, which the sizing loop does not catch: the
    batch count is still [k], not increased for it. *)
Theorem missing_attribute_stops_before_any_save env w f attrs k fuel :
  files env !! loadpath (data w) = Some f ->
  h5_groups f !! parent_group (h5key (data w)) = Some attrs ->
  attrs !! offset_attribute (h5key (data w)) = None \/
  attrs !! scale_attribute (h5key (data w)) = None ->
  1 <= k ->
  (forall j, 1 <= j < k ->
     exists e, raised (load_dataset_batch env 0 (set_num_batches j (data w))) = Some e /\
               caught e = true) ->
  raised (load_dataset_batch env 0 (set_num_batches k (data w))) = None ->
  (Z.to_nat k <= fuel)%nat ->
  (exists name w',
     handle_dataset fuel env true w = Some (Raised (KeyError name) w') /\
     (name = offset_attribute (h5key (data w)) \/
      name = scale_attribute (h5key (data w))) /\
     attrs !! name = None /\
     caught (KeyError name) = false /\
     num_batches (data w') = k /\
     disk w' = disk w) /\
  (forall fuel',
     match handle_dataset fuel' env true w with
     | Some (Done _) => False
     | Some (Raised _ w') => disk w' = disk w
     | None => True
     end).
Proof.
  intros Hf Hg Hmiss Hk Hfail Hok Hfuel. split.
  - unfold handle_dataset, find_num_batches.
    assert (Hfail' : forall j, 1 <= j < k ->
              exists e, raised (probe env true (set_num_batches j (data w))) = Some e /\
                        caught e = true).
    { intros j Hj. destruct (Hfail j Hj) as (e & He & Hc).
      exists e. split; [apply probe_load_raised; exact He|exact Hc]. }
    destruct (sizing_loop_reaches env true (data w) k Hfail' (Z.to_nat (k - 1)) 1
                (set_num_batches 1 (data w)) (fuel - Z.to_nat (k - 1))%nat)
      as (s_k & Hs & Heq); [apply same_probe_refl|lia|lia|].
    replace (Z.to_nat (k - 1) + (fuel - Z.to_nat (k - 1)))%nat with fuel in Heq by lia.
    rewrite Heq.
    destruct (fuel - Z.to_nat (k - 1))%nat as [|m] eqn:Em; [lia|].
    rewrite sizing_loop_step.
    destruct (probe_missing env (set_num_batches k (data w)) f attrs Hf Hg Hmiss)
      as [(e & He & _)|(_ & name & He & Hname & Hnone)].
    { simpl in He. rewrite Hok in He. discriminate. }
    rewrite <- (probe_same env true s_k _ Hs) in He.
    pose proof (probe_keeps env true s_k) as [[_ Hn] _].
    destruct (probe env true s_k) as [s'|e' s']; simpl in He; [discriminate|].
    injection He as ->. simpl.
    exists name, (MkWorld s' (disk w)). simpl in *.
    destruct Hs as [_ Hn']. simpl in Hn'.
    repeat split; auto. congruence.
  - intros fuel'. unfold handle_dataset, find_num_batches.
    pose proof (sizing_loop_never_done env (data w) f attrs Hf Hg Hmiss fuel'
                  (set_num_batches 1 (data w))) as H.
    destruct (sizing_loop fuel' env true (set_num_batches 1 (data w))) as [[s|e s]|].
    + exfalso. apply H. split; reflexivity.
    + reflexivity.
    + exact I.
Qed.

(** ** Saving *)

Lemma astype_uint16_range x : 0 <= astype_uint16 x < 65536.
Proof.
  destruct x; simpl; try lia. apply Z.mod_pos_bound. lia.
Qed.

Lemma Forall_map3_astype (a : array3 float) :
  Forall (Forall (Forall (fun z => 0 <= z < 65536))) (map3 astype_uint16 a).
Proof.
  unfold map3. apply List.Forall_forall. intros m Hm.
  apply in_map_iff in Hm as (m0 & <- & _).
  apply List.Forall_forall. intros r Hr.
  apply in_map_iff in Hr as (r0 & <- & _).
  apply List.Forall_forall. intros z Hz.
  apply in_map_iff in Hz as (x & <- & _).
  apply astype_uint16_range.
Qed.

Lemma save_dataset_Done env corr batch w w' :
  save_dataset env corr batch w = Done w' ->
  exists a,
    dataset (data w) = Some a /\
    w' = MkWorld (data w)
           (<[full_savepath corr batch (data w) :=
                {[h5key (data w) := map3 astype_uint16 a]}]> (disk w)).
Proof.
  unfold save_dataset.
  destruct (open_fault env _); [discriminate|].
  destruct (dataset (data w)) as [a|]; [|discriminate].
  destruct (write_fault env _ a) as [[? ?]|]; [discriminate|].
  intros [= <-]. exists a. auto.
Qed.

(** C8.  A completed [save_dataset] leaves, at the derived save path, a
    container holding exactly one array, under the dataset's own key, and
    touches no other path; the array is the loaded one cast element by
    element to unsigned 16-bit integers, every element within [0, 65535].
    The cast truncates toward zero and wraps modulo 2^16: in-range values
    are kept, 65536 becomes 0, 70000 becomes 4464, -1 becomes 65535, 2.75
    becomes 2 and -2.75 becomes 65534; nothing is clamped or rounded. *)
Theorem save_dataset_writes_one_uint16_array env corr batch w w' :
  save_dataset env corr batch w = Done w' ->
  exists a,
    dataset (data w) = Some a /\
    disk w' !! full_savepath corr batch (data w) =
      Some {[h5key (data w) := map3 astype_uint16 a]} /\
    map_to_list ({[h5key (data w) := map3 astype_uint16 a]} : gmap string (array3 Z)) =
      [(h5key (data w), map3 astype_uint16 a)] /\
    (forall path, path <> full_savepath corr batch (data w) ->
                  disk w' !! path = disk w !! path) /\
    Forall (Forall (Forall (fun z => 0 <= z < 65536))) (map3 astype_uint16 a) /\
    (forall s m e,
       astype_uint16 (S754_finite s m e) = cond_Zopp s (trunc_mag m e) mod 65536) /\
    map astype_uint16
      [float_of_int 5; float_of_int 65535; float_of_int 65536; float_of_int 70000;
       float_of_int (-1); S754_finite false 11 (-2); S754_finite true 11 (-2)] =
      [5; 65535; 0; 4464; 65535; 2; 65534].
Proof.
  intros H. apply save_dataset_Done in H as (a & Ha & ->). exists a. simpl.
  split; [exact Ha|].
  split; [apply lookup_insert_eq|].
  split; [apply map_to_list_singleton|].
  split; [intros path Hp; apply lookup_insert_ne; congruence|].
  split; [apply Forall_map3_astype|].
  split; [reflexivity|].
  vm_compute. reflexivity.
Qed.

(** C9.  [save_dataset] opens its target in mode ["w"]: whether a file
    already exists at the derived path makes no difference to whether the
    save raises, and after a completed save the path holds the new
    single-array container only, whatever the old file held; the resulting
    disk is the one obtained when no file was there. *)
Theorem save_dataset_replaces_existing_file env corr batch self d old :
  let p := full_savepath corr batch self in
  let with_old := save_dataset env corr batch (MkWorld self (<[p := old]> d)) in
  let without := save_dataset env corr batch (MkWorld self (delete p d)) in
  raised with_old = raised without /\
  (raised with_old = None ->
   exists a,
     dataset self = Some a /\
     disk (final with_old) !! p = Some {[h5key self := map3 astype_uint16 a]} /\
     disk (final with_old) = disk (final without)).
Proof.
  intros p with_old without. unfold with_old, without, save_dataset. simpl. fold p.
  destruct (open_fault env p); [split; [reflexivity|discriminate]|].
  destruct (dataset self) as [a|]; [|split; [reflexivity|discriminate]].
  destruct (write_fault env p a) as [[? ?]|]; [split; [reflexivity|discriminate]|].
  simpl. split; [reflexivity|]. intros _. exists a.
  split; [reflexivity|]. split; [apply lookup_insert_eq|].
  rewrite insert_insert_eq, insert_delete_eq. reflexivity.
Qed.

(** ** Save paths *)

Lemma string_app_cons c (s t : string) : String c s +:+ t = String c (s +:+ t).
Proof. reflexivity. Qed.

Lemma string_app_assoc (s1 s2 s3 : string) : (s1 +:+ s2) +:+ s3 = s1 +:+ (s2 +:+ s3).
Proof.
  induction s1 as [|c s1 IH]; [reflexivity|].
  rewrite !string_app_cons. f_equal. exact IH.
Qed.

Lemma string_app_nil_r (s : string) : s +:+ "" = s.
Proof.
  induction s as [|c s IH]; [reflexivity|]. rewrite string_app_cons. f_equal. exact IH.
Qed.

Lemma string_app_inv_head (s t1 t2 : string) : s +:+ t1 = s +:+ t2 -> t1 = t2.
Proof.
  induction s as [|c s IH]; [auto|]. rewrite !string_app_cons. intros [= H]. auto.
Qed.

Lemma string_length_app (s t : string) :
  String.length (s +:+ t) = (String.length s + String.length t)%nat.
Proof.
  induction s as [|c s IH]; [reflexivity|].
  rewrite string_app_cons. simpl. rewrite IH. reflexivity.
Qed.

Lemma string_app_inv_tail (t s1 s2 : string) : s1 +:+ t = s2 +:+ t -> s1 = s2.
Proof.
  revert s2. induction s1 as [|c s1 IH]; intros [|c2 s2] H.
  - reflexivity.
  - apply (f_equal String.length) in H. rewrite !string_length_app in H. simpl in H. lia.
  - apply (f_equal String.length) in H. rewrite !string_length_app in H. simpl in H. lia.
  - rewrite !string_app_cons in H. injection H as -> H. f_equal. apply IH. exact H.
Qed.

Lemma full_savepath_derive corr batch self :
  full_savepath corr batch self = derive (savepath self) corr batch (num_batches self).
Proof.
  unfold full_savepath, derive.
  destruct corr, (1 <? num_batches self); simpl;
    rewrite ?string_app_assoc, ?string_app_nil_r; reflexivity.
Qed.

(** C4.  [full_savepath] is the function [derive] of the base save path,
    the correction flag, the batch index and the batch count: the base is
    followed by ["-corr"] exactly when correction was requested, then by
    ["_batch<i>"] exactly when there is more than one batch, and the
    extension [".h5"] comes last; the four paths of the specification are
    derived as written there. *)
Theorem full_savepath_suffixes corr batch self :
  full_savepath corr batch self = derive (savepath self) corr batch (num_batches self) /\
  ((exists rest, full_savepath corr batch self = savepath self +:+ "-corr" +:+ rest)
     <-> corr = true) /\
  ((exists rest,
      full_savepath corr batch self =
        savepath self +:+ (if corr then "-corr" else "") +:+ "_batch" +:+ str batch +:+ rest)
     <-> 1 < num_batches self) /\
  (exists stem, full_savepath corr batch self = stem +:+ ".h5") /\
  derive "/out/x" false 0 1 = "/out/x.h5" /\
  derive "/out/x" true 0 1 = "/out/x-corr.h5" /\
  derive "/out/x" false 2 5 = "/out/x_batch2.h5" /\
  derive "/out/x" true 3 5 = "/out/x-corr_batch3.h5".
Proof.
  split; [apply full_savepath_derive|].
  rewrite full_savepath_derive. unfold derive.
  split; [|split; [|split]].
  - split.
    + intros [rest H]. apply string_app_inv_head in H.
      destruct corr; [reflexivity|].
      destruct (1 <? num_batches self); simpl in H; discriminate.
    + intros ->. eexists. reflexivity.
  - split.
    + intros [rest H]. apply string_app_inv_head in H.
      destruct (Z.ltb_spec 1 (num_batches self)) as [Hn|Hn]; [exact Hn|].
      destruct corr; simpl in H.
      * injection H as H. discriminate.
      * discriminate.
    + intros Hn. apply Z.ltb_lt in Hn. rewrite Hn.
      exists ".h5". rewrite !string_app_assoc. reflexivity.
  - exists (savepath self +:+ (if corr then "-corr" else "")
              +:+ (if 1 <? num_batches self then "_batch" +:+ str batch else "")).
    rewrite !string_app_assoc. reflexivity.
  - repeat split; reflexivity.
Qed.

(** ** Key paths and the linear correction *)






Lemma linear_correction_Done_intro env self f attrs offset scale a :
  files env !! loadpath self = Some f ->
  h5_groups f !! parent_group (h5key self) = Some attrs ->
  attrs !! offset_attribute (h5key self) = Some offset ->
  attrs !! scale_attribute (h5key self) = Some scale ->
  dataset self = Some a ->
  arith_fault env a = None ->
  linear_correction env self =
    Done (set_dataset (map3 (correct_element scale offset) a)
            (set_linear_scale scale (set_linear_offset offset self))).
Proof.
  intros Hf Hg Ho Hs Ha Hfault.
  unfold linear_correction, get_linear_offset, get_linear_scale, open_read, read_attribute.
  rewrite Hf. simpl. rewrite Hg, Ho. simpl. rewrite Hf. simpl. rewrite Hg, Hs. simpl.
  unfold apply_correction. simpl. rewrite Ha, Hfault. reflexivity.
Qed.

Lemma h5_groups_empty_path f : h5_groups f !! "" = None.
Proof. unfold h5_groups. apply lookup_delete_eq. Qed.


(** A key without a group part: the group asked for is the one at the empty
    path, and the correction ends with [KeyError] before it reads anything. *)
Lemma linear_correction_no_group_part env self f :
  parent_group (h5key self) = "" ->
  files env !! loadpath self = Some f ->
  linear_correction env self = Raised (KeyError "") self.
Proof.
  intros Hg Hf.
  unfold linear_correction, get_linear_offset, open_read, read_attribute.
  rewrite Hf. simpl. rewrite Hg, h5_groups_empty_path. reflexivity.
Qed.



(** ** Row bounds *)

Lemma int_truediv_floor a b :
  0 <= a < 2 ^ 53 -> 0 < b -> a = 0 \/ b < 2 ^ 53 -> int_truediv a b = Ok (a / b).
Proof.
  intros Ha Hb [->|Hb'].
  - rewrite int_truediv_zero by lia. rewrite Z.div_0_l by lia. reflexivity.
  - apply int_truediv_small; lia.
Qed.

Lemma batch_bounds_floor R N i :
  0 <= R -> 1 <= N -> N * R < 2 ^ 53 -> 0 <= i < N ->
  batch_bounds R N i = Ok (floor_start R N i, floor_end R N i).
Proof.
  intros HR HN Hb Hi. unfold batch_bounds, floor_start, floor_end.
  assert (Hside : forall j, 0 <= j <= N -> int_truediv (j * R) N = Ok (j * R / N)).
  { intros j Hj. apply int_truediv_floor; [nia|lia|].
    destruct (Z.eq_dec R 0) as [->|HR0]; [left; lia|right; nia]. }
  rewrite (Hside i), (Hside (i + 1)) by lia. reflexivity.
Qed.

Lemma floor_size R N x :
  0 < N -> R / N <= (x + R) / N - x / N <= R / N + 1.
Proof.
  intros HN.
  pose proof (Z.div_mod x N ltac:(lia)). pose proof (Z.mod_pos_bound x N HN).
  pose proof (Z.div_mod R N ltac:(lia)). pose proof (Z.mod_pos_bound R N HN).
  pose proof (Z.div_mod (x + R) N ltac:(lia)). pose proof (Z.mod_pos_bound (x + R) N HN).
  nia.
Qed.

Lemma floor_cover R N row :
  0 < N -> 0 <= row < R ->
  exists i,
    0 <= i < N /\
    floor_start R N i <= row < floor_end R N i /\
    forall j, 0 <= j < N -> floor_start R N j <= row < floor_end R N j -> j = i.
Proof.
  intros HN Hrow. unfold floor_start, floor_end.
  assert (HR : 0 < R) by lia.
  set (i := ((row + 1) * N - 1) / R).
  pose proof (Z.div_mod ((row + 1) * N - 1) R ltac:(lia)) as Hdm.
  pose proof (Z.mod_pos_bound ((row + 1) * N - 1) R HR) as Hmod.
  fold i in Hdm.
  assert (Hi0 : 0 <= i) by (apply Z.div_pos; nia).
  assert (HiN : i < N) by (apply Z.div_lt_upper_bound; nia).
  exists i. split; [lia|]. split; [split|].
  - assert (i * R / N < row + 1); [|lia]. apply Z.div_lt_upper_bound; nia.
  - assert (row + 1 <= (i + 1) * R / N); [|lia]. apply Z.div_le_lower_bound; nia.
  - intros j Hj [Hlo Hhi].
    pose proof (Z.div_mod (j * R) N ltac:(lia)). pose proof (Z.mod_pos_bound (j * R) N HN).
    pose proof (Z.div_mod ((j + 1) * R) N ltac:(lia)).
    pose proof (Z.mod_pos_bound ((j + 1) * R) N HN).
    assert (j * R < (row + 1) * N) by nia.
    assert ((row + 1) * N <= (j + 1) * R) by nia.
    assert (j <= i) by (apply Z.div_le_lower_bound; nia).
    assert (i < j + 1) by (apply Z.div_lt_upper_bound; nia).
    lia.
Qed.

(** C2, for [N * R] below 2^53.  The bounds [load_dataset_batch] computes
    for the batches [0 .. N-1] are the floors of [i * R / N] and
    [(i + 1) * R / N]; the ranges start at row 0 and end at row [R], each
    range ends where the next one starts, every row lies in exactly one
    range, and two ranges differ in size by at most one row. *)
Theorem batch_bounds_partition R N :
  0 <= R -> 1 <= N -> N * R < 2 ^ 53 ->
  (forall i, 0 <= i < N ->
     batch_bounds R N i = Ok (floor_start R N i, floor_end R N i)) /\
  floor_start R N 0 = 0 /\
  floor_end R N (N - 1) = R /\
  (forall i, floor_end R N i = floor_start R N (i + 1)) /\
  (forall i, 0 <= i -> floor_start R N i <= floor_end R N i) /\
  (forall row, 0 <= row < R ->
     exists i,
       0 <= i < N /\
       floor_start R N i <= row < floor_end R N i /\
       forall j, 0 <= j < N -> floor_start R N j <= row < floor_end R N j -> j = i) /\
  (forall i j, 0 <= i < N -> 0 <= j < N ->
     Z.abs ((floor_end R N i - floor_start R N i) -
            (floor_end R N j - floor_start R N j)) <= 1).
Proof.
  intros HR HN Hb.
  split; [intros i Hi; apply batch_bounds_floor; auto|].
  split; [unfold floor_start; apply Z.div_0_l; lia|].
  split.
  { unfold floor_end. replace ((N - 1 + 1) * R) with (R * N) by lia. apply Z.div_mul; lia. }
  split; [reflexivity|].
  split.
  { intros i Hi. unfold floor_start, floor_end. apply Z.div_le_mono; nia. }
  split; [intros row Hrow; apply floor_cover; lia|].
  intros i j Hi Hj. unfold floor_start, floor_end.
  pose proof (floor_size R N (i * R) ltac:(lia)).
  pose proof (floor_size R N (j * R) ltac:(lia)).
  replace ((i + 1) * R) with (i * R + R) by lia.
  replace ((j + 1) * R) with (j * R + R) by lia.
  lia.
Qed.

(** C2 without the bound.  [int((2^53 + 1) / 1)] is [2^53]: for a dataset
    of [2^53 + 1] rows taken in one batch the computed range is
    [[0, 2^53)], and row [2^53] lies in no range. *)
Lemma batch_bounds_miss_a_row :
  batch_bounds (2 ^ 53 + 1) 1 0 = Ok (0, 2 ^ 53) /\
  exists row,
    0 <= row < 2 ^ 53 + 1 /\
    forall i lo hi,
      0 <= i < 1 -> batch_bounds (2 ^ 53 + 1) 1 i = Ok (lo, hi) -> ~ (lo <= row < hi).
Proof.
  split; [vm_compute; reflexivity|].
  exists (2 ^ 53). split; [lia|].
  intros i lo hi Hi H. assert (i = 0) as -> by lia.
  assert (E : batch_bounds (2 ^ 53 + 1) 1 0 = Ok (0, 2 ^ 53)) by (vm_compute; reflexivity).
  rewrite E in H. injection H as <- <-. lia.
Qed.

(** ** Batches against the whole dataset *)

Lemma linear_correction_Done env s s' :
  linear_correction env s = Done s' ->
  exists f offset scale a,
    files env !! loadpath s = Some f /\
    read_attribute f (parent_group (h5key s)) (offset_attribute (h5key s)) = Ok offset /\
    read_attribute f (parent_group (h5key s)) (scale_attribute (h5key s)) = Ok scale /\
    dataset s = Some a /\
    s' = set_dataset (map3 (correct_element scale offset) a)
           (set_linear_scale scale (set_linear_offset offset s)).
Proof.
  unfold linear_correction, get_linear_offset, get_linear_scale, open_read.
  destruct (files env !! loadpath s) as [f|] eqn:Ef; simpl; [|discriminate].
  destruct (read_attribute f _ (offset_attribute _)) as [off|] eqn:Eo; simpl; [|discriminate].
  rewrite Ef. simpl.
  destruct (read_attribute f _ (scale_attribute _)) as [sc|] eqn:Es; simpl; [|discriminate].
  unfold apply_correction. simpl.
  destruct (dataset s) as [a|] eqn:Ea; [|discriminate].
  destruct (arith_fault env a); [discriminate|].
  intros [= <-]. exists f, off, sc, a. repeat split; auto.
Qed.

Lemma full_savepath_same corr batch s s' :
  savepath s = savepath s' -> num_batches s = num_batches s' ->
  full_savepath corr batch s = full_savepath corr batch s'.
Proof. intros H1 H2. unfold full_savepath. rewrite H1, H2. reflexivity. Qed.

Lemma map3_map3 {A B C} (g : B -> C) (f : A -> B) (a : array3 A) :
  map3 g (map3 f a) = map3 (fun x => g (f x)) a.
Proof.
  unfold map3. rewrite map_map. apply map_ext. intros m.
  rewrite map_map. apply map_ext. intros r. apply map_map.
Qed.

Lemma map3_ext {A B} (f g : A -> B) (a : array3 A) :
  (forall x, f x = g x) -> map3 f a = map3 g a.
Proof.
  intros H. unfold map3. apply map_ext. intros m. apply map_ext. intros r.
  apply map_ext. exact H.
Qed.


(** One iteration of the main loop, when it completes. *)
Lemma handle_batch_Done env corr batch w w' :
  handle_batch env corr batch w = Done w' ->
  exists f rows lo hi,
    files env !! loadpath (data w) = Some f /\
    h5_datasets f !! h5key (data w) = Some rows /\
    batch_bounds (Z.of_nat (length rows)) (num_batches (data w)) batch = Ok (lo, hi) /\
    disk w' =
      <[full_savepath corr batch (data w) :=
          {[h5key (data w) :=
              map3 (stored_element f (h5key (data w)) corr) (slice rows lo hi)]}]> (disk w) /\
    same_probe (data w) (data w') /\
    savepath (data w') = savepath (data w).
Proof.
  intros H.
  pose proof (handle_batch_keeps env corr batch w) as [Hkeep Hsp].
  rewrite H in Hkeep, Hsp. simpl in Hkeep, Hsp.
  unfold handle_batch in H.
  destruct (load_dataset_batch env batch (data w)) as [s1|e s1] eqn:El; simpl in H;
    [|discriminate].
  apply load_dataset_batch_Done in El as (f & rows & lo & hi & Hf & Hrows & Hb & _ & ->).
  exists f, rows, lo, hi. repeat split; auto; try apply Hkeep.
  destruct corr.
  - destruct (linear_correction env _) as [s2|e s2] eqn:Ec; simpl in H; [|discriminate].
    apply linear_correction_Done in Ec as (f' & off & sc & a & Hf' & Ho & Hs & Ha & ->).
    simpl in *. rewrite Hf in Hf'. injection Hf' as <-. injection Ha as <-.
    apply save_dataset_Done in H as (a' & Ha' & ->). simpl in *.
    injection Ha' as <-. unfold full_savepath at 1. simpl.
    fold (full_savepath true batch (data w)).
    f_equal. f_equal. rewrite map3_map3. apply map3_ext. intros x.
    unfold stored_element. rewrite Hs, Ho. reflexivity.
  - apply save_dataset_Done in H as (a' & Ha' & ->). simpl in *.
    injection Ha' as <-. reflexivity.
Qed.

Lemma str_inj i j : str i = str j -> i = j.
Proof. unfold str. apply pretty_Z_inj. Qed.

Lemma full_savepath_inj corr i j s :
  1 < num_batches s -> full_savepath corr i s = full_savepath corr j s -> i = j.
Proof.
  intros Hn. rewrite !full_savepath_derive. unfold derive.
  apply Z.ltb_lt in Hn. rewrite Hn. intros H.
  apply string_app_inv_head in H. apply string_app_inv_head in H.
  apply string_app_inv_tail in H.
  apply string_app_inv_head in H. apply str_inj. exact H.
Qed.

(** The files written by the main loop, for more than one batch. *)
Lemma for_batches_saved env corr self f rows : forall batches w w',
  files env !! loadpath self = Some f ->
  h5_datasets f !! h5key self = Some rows ->
  1 < num_batches self ->
  same_probe self (data w) -> savepath (data w) = savepath self ->
  NoDup batches ->
  for_batches env corr batches w = Done w' ->
  (forall p, (forall i, In i batches -> p <> full_savepath corr i self) ->
             disk w' !! p = disk w !! p) /\
  (forall i, In i batches ->
     exists lo hi,
       batch_bounds (Z.of_nat (length rows)) (num_batches self) i = Ok (lo, hi) /\
       saved (disk w') (full_savepath corr i self) (h5key self) =
         Some (map3 (stored_element f (h5key self) corr) (slice rows lo hi))).
Proof.
  induction batches as [|b batches IH]; intros w w' Hf Hrows Hn Hsame Hsp Hnd H.
  - simpl in H. injection H as <-. split; [reflexivity|]. intros i [].
  - simpl in H.
    destruct (handle_batch env corr b w) as [w1|e w1] eqn:Eb; simpl in H; [|discriminate].
    apply handle_batch_Done in Eb
      as (f' & rows' & lo & hi & Hf' & Hrows' & Hb & Hdisk & Hkeep & Hsp').
    destruct Hsame as [[Hl Hk] Hnb].
    rewrite <- Hl, Hf in Hf'. injection Hf' as <-.
    rewrite <- Hk, Hrows in Hrows'. injection Hrows' as <-.
    rewrite <- Hnb in Hb. rewrite <- Hk in Hdisk.
    rewrite (full_savepath_same corr b (data w) self) in Hdisk by congruence.
    apply NoDup_cons in Hnd as [Hnotin Hnd].
    assert (Hsame1 : same_probe self (data w1)).
    { apply same_probe_trans with (data w); [repeat split; auto|exact Hkeep]. }
    destruct (IH w1 w' Hf Hrows Hn Hsame1 ltac:(congruence) Hnd H) as [Hother Hin].
    split.
    + intros p Hp. rewrite Hother by (intros i Hi; apply Hp; right; exact Hi).
      rewrite Hdisk. apply lookup_insert_ne. intros E. apply (Hp b); [left; reflexivity|auto].
    + intros i [<-|Hi]; [|apply Hin; exact Hi].
      exists lo, hi. split; [exact Hb|]. unfold saved.
      rewrite Hother.
      * rewrite Hdisk, lookup_insert_eq. apply lookup_singleton_eq.
      * intros j Hj E. apply full_savepath_inj in E; [|exact Hn]. subst j.
        apply Hnotin. apply list_elem_of_In. exact Hj.
Qed.





Lemma in_range i n : In i (range n) <-> 0 <= i < n.
Proof.
  unfold range. rewrite in_map_iff. split.
  - intros (k & <- & Hk). apply in_seq in Hk. lia.
  - intros Hi. exists (Z.to_nat i). split; [lia|]. apply in_seq. lia.
Qed.

Lemma NoDup_range n : NoDup (range n).
Proof.
  unfold range. change (NoDup (Z.of_nat <$> seq 0 (Z.to_nat n))).
  apply NoDup_fmap_2; [intros x y; apply Nat2Z.inj|apply NoDup_seq].
Qed.

Lemma batch_bounds_Ok R N i lo hi :
  batch_bounds R N i = Ok (lo, hi) ->
  int_truediv (i * R) N = Ok lo /\ int_truediv ((i + 1) * R) N = Ok hi.
Proof.
  unfold batch_bounds.
  destruct (int_truediv (i * R) N) as [x|]; simpl; [|discriminate].
  destruct (int_truediv ((i + 1) * R) N) as [y|]; simpl; [|discriminate].
  intros [= <- <-]. auto.
Qed.



(** ** The properties on the example container *)

Lemma find_num_batches_minimal_example :
  exists s,
    find_num_batches 2 example_env true example_data = Some (Done s) /\
    num_batches s = 2 /\ same_request s example_data.
Proof.
  apply (find_num_batches_minimal example_env true example_data 2 2).
  - lia.
  - intros j Hj. assert (j = 1) as -> by lia.
    exists MemoryError. split; vm_compute; reflexivity.
  - vm_compute. reflexivity.
  - lia.
Defined.

Lemma batch_bounds_partition_example :
  (forall i, 0 <= i < 3 ->
     batch_bounds 100 3 i = Ok (floor_start 100 3 i, floor_end 100 3 i)) /\
  floor_start 100 3 0 = 0 /\
  floor_end 100 3 (3 - 1) = 100 /\
  (forall i, floor_end 100 3 i = floor_start 100 3 (i + 1)) /\
  (forall i, 0 <= i -> floor_start 100 3 i <= floor_end 100 3 i) /\
  (forall row, 0 <= row < 100 ->
     exists i,
       0 <= i < 3 /\
       floor_start 100 3 i <= row < floor_end 100 3 i /\
       forall j, 0 <= j < 3 -> floor_start 100 3 j <= row < floor_end 100 3 j -> j = i) /\
  (forall i j, 0 <= i < 3 -> 0 <= j < 3 ->
     Z.abs ((floor_end 100 3 i - floor_start 100 3 i) -
            (floor_end 100 3 j - floor_start 100 3 j)) <= 1).
Proof.
  apply (batch_bounds_partition 100 3); [lia|lia|reflexivity].
Defined.



Lemma missing_attribute_example :
  (exists name w',
     handle_dataset 2 example_env_no_scale true example_world
       = Some (Raised (KeyError name) w') /\
     (name = offset_attribute (h5key (data example_world)) \/
      name = scale_attribute (h5key (data example_world))) /\
     ({[ "d_Conversion_ConversionLinearOffset" := float_of_int 10 ]} : gmap string float)
       !! name = None /\
     caught (KeyError name) = false /\
     num_batches (data w') = 2 /\
     disk w' = disk example_world) /\
  (forall fuel',
     match handle_dataset fuel' example_env_no_scale true example_world with
     | Some (Done _) => False
     | Some (Raised _ w') => disk w' = disk example_world
     | None => True
     end).
Proof.
  apply (missing_attribute_stops_before_any_save example_env_no_scale example_world
           example_file_no_scale
           {[ "d_Conversion_ConversionLinearOffset" := float_of_int 10 ]} 2 2).
  - vm_compute. reflexivity.
  - vm_compute. reflexivity.
  - right. vm_compute. reflexivity.
  - lia.
  - intros j Hj. assert (j = 1) as -> by lia.
    exists MemoryError. split; vm_compute; reflexivity.
  - vm_compute. reflexivity.
  - lia.
Defined.

Lemma errors_recovered_only_while_sizing_example :
  sizing_loop 2 example_env true (set_num_batches 1 example_data) =
    sizing_loop 1 example_env true
      (set_num_batches (num_batches (set_num_batches 1 example_data) + 1)
         (final (probe example_env true (set_num_batches 1 example_data)))) /\
  sizing_loop 1 example_env_no_scale true (set_num_batches 2 example_data) =
    Some (Raised (KeyError "d_Conversion_ConversionLinearScale")
            (final (probe example_env_no_scale true (set_num_batches 2 example_data)))) /\
  for_batches example_env true ([0] ++ 1 :: [])
      (MkWorld (set_num_batches 2 example_data) ∅) =
    Raised MemoryError
      (final (handle_batch example_env true 1
                (final (for_batches example_env true [0]
                          (MkWorld (set_num_batches 2 example_data) ∅))))) /\
  num_batches
    (data (final (handle_batch example_env true 1
                    (final (for_batches example_env true [0]
                              (MkWorld (set_num_batches 2 example_data) ∅))))))
  = num_batches (data (MkWorld (set_num_batches 2 example_data) ∅)).
Proof.
  destruct (errors_recovered_only_while_sizing example_env true) as (Hretry & _ & Hmain).
  destruct (errors_recovered_only_while_sizing example_env_no_scale true)
    as (_ & Hpass & _).
  split; [|split].
  - apply (Hretry 1%nat (set_num_batches 1 example_data) MemoryError).
    + vm_compute. reflexivity.
    + right. reflexivity.
  - apply (Hpass 0%nat (set_num_batches 2 example_data)
             (KeyError "d_Conversion_ConversionLinearScale")).
    + vm_compute. reflexivity.
    + discriminate.
    + discriminate.
  - apply (Hmain [0] 1 [] (MkWorld (set_num_batches 2 example_data) ∅)
             (final (for_batches example_env true [0]
                       (MkWorld (set_num_batches 2 example_data) ∅))));
      vm_compute; reflexivity.
Defined.

Lemma save_dataset_example :
  exists a,
    dataset (set_dataset [[[float_of_int 5]]] example_data) = Some a /\
    disk (final (save_dataset example_env false 0
                   (MkWorld (set_dataset [[[float_of_int 5]]] example_data) ∅)))
      !! "out/x.h5" = Some {[ "g/d" := map3 astype_uint16 a ]}.
Proof.
  destruct (save_dataset_writes_one_uint16_array example_env false 0
              (MkWorld (set_dataset [[[float_of_int 5]]] example_data) ∅)
              (final (save_dataset example_env false 0
                        (MkWorld (set_dataset [[[float_of_int 5]]] example_data) ∅))))
    as (a & Ha & Hfile & _).
  - vm_compute. reflexivity.
  - exists a. split; [exact Ha|exact Hfile].
Defined.

Lemma save_dataset_replaces_example :
  exists a,
    dataset (set_dataset [[[float_of_int 5]]] example_data) = Some a /\
    disk (final (save_dataset example_env false 0
                   (MkWorld (set_dataset [[[float_of_int 5]]] example_data)
                            (<["out/x.h5" := {[ "old" := [[[7]]] ]}]> ∅))))
      !! "out/x.h5" = Some {[ "g/d" := map3 astype_uint16 a ]}.
Proof.
  destruct (save_dataset_replaces_existing_file example_env false 0
              (set_dataset [[[float_of_int 5]]] example_data) ∅ {[ "old" := [[[7]]] ]})
    as [_ H].
  destruct H as (a & Ha & Hfile & _).
  - vm_compute. reflexivity.
  - exists a. split; [exact Ha|exact Hfile].
Defined.

Lemma find_num_batches_ignores_prior_state_example :
  sizing_result (find_num_batches 5 example_env true example_data) =
  sizing_result (find_num_batches 5 example_env true (set_num_batches 7 example_data)).
Proof.
  apply (find_num_batches_ignores_prior_state 5 example_env true
           example_data (set_num_batches 7 example_data)).
  split; reflexivity.
Defined.

(** ** Examples *)

(** Quotients as CPython prints them: [1 / 3] is
    [0x1.5555555555555p-2], [7 / 2] is [3.5], and dividing by zero or
    overflowing the format raises. *)
Example truediv_samples :
  truediv 1 3 = Ok (S754_finite false 6004799503160661 (-54)) /\
  truediv 7 2 = Ok (S754_finite false 7881299347898368 (-51)) /\
  truediv (-7) 2 = Ok (S754_finite true 7881299347898368 (-51)) /\
  truediv 1 (2 ^ 1075) = Ok (S754_zero false) /\
  truediv 1 0 = Err ZeroDivisionError /\
  truediv (2 ^ 1030) 3 = Err OverflowError /\
  map (fun a => int_truediv a 2) [7; -7; 0] = [Ok 3; Ok (-3); Ok 0].
Proof. vm_compute. repeat split. Qed.

(** The scenario of the specification: sizing settles on 3 batches, and the
    run leaves the three files [base-corr_batch0.h5], [base-corr_batch1.h5]
    and [base-corr_batch2.h5], holding rows [0, 33), [33, 66) and [66, 100)
    mapped through [0.5 * x + 1.0] and cast. *)
Example scenario_three_batches :
  sizing_result (find_num_batches 3 scenario_env true (data scenario_world)) = Some (Ok 3) /\
  disk_after (handle_dataset 3 scenario_env true scenario_world) =
    Some (list_to_map
            (map (fun '(name, lo, hi) =>
                    (name,
                     {[ "g/d" := map3 (fun x => astype_uint16
                                                  (fadd (fmul one_half x) (float_of_int 1)))
                                      (slice scenario_rows lo hi) ]}))
                 [("base-corr_batch0.h5", 0, 33);
                  ("base-corr_batch1.h5", 33, 66);
                  ("base-corr_batch2.h5", 66, 100)])).
Proof. split; vm_compute; reflexivity. Qed.

(** ** More on sizing *)

Lemma load_dataset_batch_Done_intro env batch s f rows lo hi :
  files env !! loadpath s = Some f ->
  h5_datasets f !! h5key s = Some rows ->
  batch_bounds (Z.of_nat (length rows)) (num_batches s) batch = Ok (lo, hi) ->
  read_fault env (h5key s) lo hi = None ->
  load_dataset_batch env batch s = Done (set_dataset (slice rows lo hi) s).
Proof.
  intros Hf Hr Hb Hn. unfold load_dataset_batch, open_read.
  rewrite Hf, Hr, Hb, Hn. reflexivity.
Qed.

Lemma load_dataset_batch_read_fault env batch s f rows lo hi e :
  files env !! loadpath s = Some f ->
  h5_datasets f !! h5key s = Some rows ->
  batch_bounds (Z.of_nat (length rows)) (num_batches s) batch = Ok (lo, hi) ->
  read_fault env (h5key s) lo hi = Some e ->
  load_dataset_batch env batch s = Raised e s.
Proof.
  intros Hf Hr Hb Hn. unfold load_dataset_batch, open_read.
  rewrite Hf, Hr, Hb, Hn. reflexivity.
Qed.

Lemma sizing_loop_sound env corr self : forall fuel s0 o,
  same_request s0 self ->
  sizing_loop fuel env corr s0 = Some o ->
  num_batches s0 <= num_batches (final o) /\
  raised (probe env corr (set_num_batches (num_batches (final o)) self)) = raised o /\
  (forall e, raised o = Some e -> caught e = false) /\
  (forall j, num_batches s0 <= j < num_batches (final o) ->
     exists e, raised (probe env corr (set_num_batches j self)) = Some e /\ caught e = true).
Proof.
  induction fuel as [|fuel IH]; intros s0 o Hreq H; [discriminate|].
  rewrite sizing_loop_step in H.
  assert (Hcanon : same_probe s0 (set_num_batches (num_batches s0) self))
    by (split; [exact Hreq|reflexivity]).
  pose proof (probe_same env corr s0 _ Hcanon) as Hsame.
  pose proof (probe_keeps env corr s0) as [[[Hl Hk] Hn] _].
  destruct (probe env corr s0) as [s'|e s'] eqn:Ep; simpl in *.
  - injection H as <-. simpl. rewrite <- Hn.
    repeat split; try lia; auto. intros e [=].
  - destruct (caught e) eqn:Ec.
    + assert (Hreq' : same_request (set_num_batches (num_batches s0 + 1) s') self)
        by (destruct Hreq; split; simpl; congruence).
      destruct (IH _ o Hreq' H) as (H1 & H2 & H3 & H4). simpl in H1.
      repeat split; auto; try lia.
      intros j Hj. destruct (Z.eq_dec j (num_batches s0)) as [->|Hne].
      * exists e. auto.
      * apply H4. simpl. lia.
    + injection H as <-. simpl. rewrite <- Hn.
      repeat split; auto; try lia.
      intros e' [= <-]. exact Ec.
Qed.

(** X1.  Whatever [find_num_batches] returns, it has tried the batch counts
    from 1 upward one by one: the count it stops at is at least 1, every
    smaller count failed with [ValueError] or [MemoryError], and at the count
    it stops at the probe either completed or raised an exception of
    another class, which is then the one passed on. *)
Theorem find_num_batches_stops_at_first_other_outcome fuel env corr self o :
  find_num_batches fuel env corr self = Some o ->
  1 <= num_batches (final o) /\
  raised (probe env corr (set_num_batches (num_batches (final o)) self)) = raised o /\
  (forall e, raised o = Some e -> caught e = false) /\
  (forall j, 1 <= j < num_batches (final o) ->
     exists e, raised (probe env corr (set_num_batches j self)) = Some e /\ caught e = true).
Proof.
  intros H. unfold find_num_batches in H.
  apply (sizing_loop_sound env corr self) in H; [exact H|split; reflexivity].
Qed.

(** X2.  When the probe raises [ValueError] or [MemoryError] at every batch
    count, [find_num_batches] never returns, however long it runs. *)
Theorem find_num_batches_never_returns env corr self :
  (forall j, 1 <= j ->
     exists e, raised (probe env corr (set_num_batches j self)) = Some e /\ caught e = true) ->
  forall fuel, find_num_batches fuel env corr self = None.
Proof.
  intros Hfail fuel. unfold find_num_batches.
  destruct (sizing_loop_reaches env corr self (Z.of_nat fuel + 1)
              ltac:(intros j Hj; apply Hfail; lia) fuel 1
              (set_num_batches 1 self) 0%nat) as (s_k & _ & Heq);
    [apply same_probe_refl|lia|lia|].
  rewrite Nat.add_0_r in Heq. rewrite Heq. reflexivity.
Qed.

Lemma linear_correction_Done_fault env s s' :
  linear_correction env s = Done s' ->
  exists a, dataset s = Some a /\ arith_fault env a = None.
Proof.
  unfold linear_correction, get_linear_offset, get_linear_scale, open_read.
  destruct (files env !! loadpath s) as [f|] eqn:Ef; simpl; [|discriminate].
  destruct (read_attribute f _ (offset_attribute _)) as [off|] eqn:Eo; simpl; [|discriminate].
  rewrite Ef. simpl.
  destruct (read_attribute f _ (scale_attribute _)) as [sc|] eqn:Es; simpl; [|discriminate].
  unfold apply_correction. simpl.
  destruct (dataset s) as [a|]; [|discriminate].
  destruct (arith_fault env a) eqn:Ea; [discriminate|].
  intros _. exists a. auto.
Qed.

Lemma probe_fixpoint env corr s s' :
  probe env corr s = Done s' -> probe env corr s' = Done s'.
Proof.
  unfold probe. intros H.
  destruct (load_dataset_batch env 0 s) as [s1|e s1] eqn:El; simpl in H; [|discriminate].
  apply load_dataset_batch_Done in El as (f & rows & lo & hi & Hf & Hrows & Hb & Hfault & ->).
  destruct corr.
  - pose proof (linear_correction_Done_fault _ _ _ H) as (a' & Ha' & Hnf).
    apply linear_correction_Done in H as (f' & off & sc & a & Hf' & Ho & Hs & Ha & ->).
    simpl in *. rewrite Hf in Hf'. injection Hf' as <-. injection Ha as <-.
    injection Ha' as <-.
    unfold load_dataset_batch, open_read. simpl. rewrite Hf, Hrows, Hb, Hfault. simpl.
    unfold linear_correction, get_linear_offset, get_linear_scale, open_read. simpl.
    rewrite Hf. simpl. rewrite Ho. simpl. rewrite Hf. simpl. rewrite Hs. simpl.
    unfold apply_correction. simpl. rewrite Hnf. reflexivity.
  - injection H as <-.
    unfold load_dataset_batch, open_read. simpl. rewrite Hf, Hrows, Hb, Hfault. reflexivity.
Qed.

(** X3.  When [find_num_batches] returns normally, running the sizing probe
    again on the object it leaves changes nothing, and the first pass of the
    main loop, which loads (and corrects) batch 0 once more, hands to
    [save_dataset] exactly the object sizing had already built: the first
    batch is computed twice. *)
Theorem sizing_already_holds_first_batch fuel env corr self s d :
  find_num_batches fuel env corr self = Some (Done s) ->
  probe env corr s = Done s /\
  handle_batch env corr 0 (MkWorld s d) = save_dataset env corr 0 (MkWorld s d).
Proof.
  intros H. unfold find_num_batches in H.
  assert (Hp : probe env corr s = Done s).
  { revert H. generalize (set_num_batches 1 self). induction fuel as [|fuel IH]; intros s0 H.
    - discriminate.
    - rewrite sizing_loop_step in H.
      destruct (probe env corr s0) as [s'|e s'] eqn:Ep.
      + injection H as <-. exact (probe_fixpoint _ _ _ _ Ep).
      + destruct (caught e); [eauto|discriminate]. }
  split; [exact Hp|].
  unfold probe in Hp. unfold handle_batch. simpl.
  destruct (load_dataset_batch env 0 s) as [s1|e s1]; simpl in *; [|discriminate].
  destruct corr; [|congruence].
  rewrite Hp. reflexivity.
Qed.

Lemma find_num_batches_stops_example :
  1 <= num_batches (final example_sizing) /\
  raised (probe example_env true
            (set_num_batches (num_batches (final example_sizing)) example_data))
    = raised example_sizing /\
  (forall e, raised example_sizing = Some e -> caught e = false) /\
  (forall j, 1 <= j < num_batches (final example_sizing) ->
     exists e, raised (probe example_env true (set_num_batches j example_data)) = Some e /\
               caught e = true).
Proof.
  apply (find_num_batches_stops_at_first_other_outcome 2 example_env true example_data
           example_sizing).
  vm_compute. reflexivity.
Defined.

Lemma find_num_batches_never_returns_example :
  find_num_batches 1000 example_env_no_memory false example_data = None.
Proof.
  apply (find_num_batches_never_returns example_env_no_memory false example_data).
  intros j Hj. exists MemoryError. split; [|reflexivity].
  unfold probe.
  rewrite (load_dataset_batch_read_fault example_env_no_memory 0
             (set_num_batches j example_data) (H5File {[ "g/d" := [] ]} ∅) [] 0 0 MemoryError);
    try reflexivity.
  change (batch_bounds 0 j 0 = Ok (0, 0)). unfold batch_bounds.
  change (0 * 0) with 0. change ((0 + 1) * 0) with 0.
  rewrite (int_truediv_zero j) by lia. reflexivity.
Defined.

Lemma sizing_already_holds_first_batch_example :
  probe example_env true (final example_sizing) = Done (final example_sizing) /\
  handle_batch example_env true 0 (MkWorld (final example_sizing) ∅) =
  save_dataset example_env true 0 (MkWorld (final example_sizing) ∅).
Proof.
  apply (sizing_already_holds_first_batch 2 example_env true example_data
           (final example_sizing) ∅).
  vm_compute. reflexivity.
Defined.

(** ** Sizing against the number of rows *)

Lemma slice_empty {A} (l : list A) : slice l 0 0 = [].
Proof.
  unfold slice, slice_index. simpl.
  replace (Z.min 0 (Z.of_nat (length l)) - Z.min 0 (Z.of_nat (length l))) with 0 by lia.
  reflexivity.
Qed.

(** The bounds of batch 0 are [0] and the floor of [R / N]. *)
Lemma batch_bounds_first R N :
  0 <= R < 2 ^ 53 -> 0 < N < 2 ^ 53 -> batch_bounds R N 0 = Ok (0, R / N).
Proof.
  intros HR HN. unfold batch_bounds.
  change (0 * R) with 0. replace ((0 + 1) * R) with R by lia.
  rewrite int_truediv_zero by lia. simpl.
  rewrite int_truediv_floor by lia. reflexivity.
Qed.

Lemma linear_correction_raised env s a e :
  dataset s = Some a -> arith_fault env a = None ->
  raised (linear_correction env s) = Some e -> caught e = false.
Proof.
  intros Ha Hf.
  unfold linear_correction, get_linear_offset, get_linear_scale, open_read.
  destruct (files env !! loadpath s) as [f|] eqn:Ef; simpl; [|intros [= <-]; reflexivity].
  unfold read_attribute at 1.
  destruct (h5_groups f !! parent_group (h5key s)) as [attrs|] eqn:Eg; simpl;
    [|intros [= <-]; reflexivity].
  destruct (attrs !! offset_attribute (h5key s)) as [off|] eqn:Eo; simpl;
    [|intros [= <-]; reflexivity].
  rewrite Ef. simpl. unfold read_attribute. rewrite Eg.
  destruct (attrs !! scale_attribute (h5key s)) as [sc|] eqn:Es; simpl;
    [|intros [= <-]; reflexivity].
  unfold apply_correction. simpl. rewrite Ha, Hf. simpl. discriminate.
Qed.

Lemma probe_empty_batch env corr s f rows e :
  files env !! loadpath s = Some f ->
  h5_datasets f !! h5key s = Some rows ->
  num_batches s = Z.of_nat (length rows) + 1 ->
  Z.of_nat (length rows) + 1 < 2 ^ 53 ->
  read_fault env (h5key s) 0 0 = None ->
  arith_fault env [] = None ->
  raised (probe env corr s) = Some e -> caught e = false.
Proof.
  intros Hf Hr Hn Hsmall Hread Harith. unfold probe.
  rewrite (load_dataset_batch_Done_intro env 0 s f rows 0 0 Hf Hr); [| |exact Hread].
  - rewrite slice_empty. simpl. destruct corr; [|discriminate].
    apply (linear_correction_raised env _ []); [reflexivity|exact Harith].
  - rewrite Hn, batch_bounds_first by lia.
    rewrite Z.div_small by lia. reflexivity.
Qed.

Lemma sizing_loop_bounded env corr self f rows :
  files env !! loadpath self = Some f ->
  h5_datasets f !! h5key self = Some rows ->
  Z.of_nat (length rows) + 1 < 2 ^ 53 ->
  read_fault env (h5key self) 0 0 = None ->
  arith_fault env [] = None ->
  forall fuel s0,
    same_request s0 self ->
    1 <= num_batches s0 <= Z.of_nat (length rows) + 1 ->
    (Z.to_nat (Z.of_nat (length rows) + 2 - num_batches s0) <= fuel)%nat ->
    exists o, sizing_loop fuel env corr s0 = Some o /\
              num_batches s0 <= num_batches (final o) <= Z.of_nat (length rows) + 1.
Proof.
  intros Hf Hr Hsmall Hread Harith.
  induction fuel as [|fuel IH]; intros s0 [Hl Hk] Hn Hfuel; [lia|].
  rewrite sizing_loop_step.
  pose proof (probe_keeps env corr s0) as [[[Hl' Hk'] Hn'] _].
  destruct (probe env corr s0) as [s'|e s'] eqn:Ep; simpl in *.
  - eexists. split; [reflexivity|]. simpl. lia.
  - destruct (caught e) eqn:Ec.
    + destruct (Z.eq_dec (num_batches s0) (Z.of_nat (length rows) + 1)) as [Hlast|Hmore].
      * exfalso.
        assert (caught e = false); [|congruence].
        apply (probe_empty_batch env corr s0 f rows e); try congruence.
        rewrite Ep. reflexivity.
      * destruct (IH (set_num_batches (num_batches s0 + 1) s')) as (o & Ho & Hb).
        -- split; simpl; congruence.
        -- simpl. lia.
        -- simpl. lia.
        -- exists o. split; [exact Ho|]. simpl in Hb. lia.
    + eexists. split; [reflexivity|]. simpl. lia.
Qed.

(** X4.  When reading no rows and correcting an empty array do not fail,
    [find_num_batches] returns after at most one probe per row and one more:
    once the batch count exceeds the row count, batch 0 is empty.  The count
    it leaves is between 1 and the number of rows plus one. *)
Theorem find_num_batches_returns_by_row_count env corr self f rows fuel :
  files env !! loadpath self = Some f ->
  h5_datasets f !! h5key self = Some rows ->
  Z.of_nat (length rows) + 1 < 2 ^ 53 ->
  read_fault env (h5key self) 0 0 = None ->
  arith_fault env [] = None ->
  (length rows < fuel)%nat ->
  exists o,
    find_num_batches fuel env corr self = Some o /\
    1 <= num_batches (final o) <= Z.of_nat (length rows) + 1.
Proof.
  intros Hf Hr Hsmall Hread Harith Hfuel. unfold find_num_batches.
  apply (sizing_loop_bounded env corr self f rows Hf Hr Hsmall Hread Harith);
    [split; reflexivity|simpl; lia|simpl; lia].
Qed.

Lemma find_num_batches_returns_by_row_count_example :
  exists o,
    find_num_batches 6 example_env true example_data = Some o /\
    1 <= num_batches (final o) <= Z.of_nat (length example_rows) + 1.
Proof.
  apply (find_num_batches_returns_by_row_count example_env true example_data
           example_file example_rows 6); try reflexivity.
  simpl. lia.
Defined.

(** ** Rows that never fit *)


Lemma save_dataset_Done_intro env corr batch w a :
  open_fault env (full_savepath corr batch (data w)) = None ->
  dataset (data w) = Some a ->
  write_fault env (full_savepath corr batch (data w)) a = None ->
  save_dataset env corr batch w =
  Done (MkWorld (data w)
          (<[full_savepath corr batch (data w) :=
               {[h5key (data w) := map3 astype_uint16 a]}]> (disk w))).
Proof.
  intros Ho Ha Hw. unfold save_dataset. rewrite Ho, Ha, Hw. reflexivity.
Qed.




(** ** The row bounds beyond the exactly representable sizes *)

Lemma slice_length {A} (l : list A) lo hi :
  0 <= lo <= hi -> hi <= Z.of_nat (length l) ->
  Z.of_nat (length (slice l lo hi)) = hi - lo.
Proof.
  intros H1 H2. unfold slice, slice_index.
  destruct (lo <? 0) eqn:E1; [lia|]. destruct (hi <? 0) eqn:E2; [lia|].
  rewrite !Z.min_l by lia.
  rewrite length_take, length_drop. lia.
Qed.

(** X6.  For every row count and every batch count, also those for which
    the quotient of [load_dataset_batch] is rounded: the bounds of a batch
    are ordered and not negative, batch 0 starts at row 0, and each batch
    starts at the row where the one before it ends, so no two batches
    overlap and no row between the first start and the last end is left out. *)
Theorem batch_bounds_chain R N i lo hi :
  0 <= R -> 1 <= N -> 0 <= i ->
  batch_bounds R N i = Ok (lo, hi) ->
  0 <= lo <= hi /\
  (i = 0 -> lo = 0) /\
  (forall lo' hi', batch_bounds R N (i + 1) = Ok (lo', hi') -> lo' = hi /\ hi <= hi').
Proof.
  intros HR HN Hi Hb. apply batch_bounds_Ok in Hb as [Hlo Hhi].
  split; [|split].
  - split.
    + apply (int_truediv_nonneg (i * R) N lo); [nia|lia|exact Hlo].
    + apply (int_truediv_mono (i * R) ((i + 1) * R) N lo hi); [nia|lia|exact Hlo|exact Hhi].
  - intros ->. rewrite Z.mul_0_l, int_truediv_zero in Hlo by lia. congruence.
  - intros lo' hi' Hb'. apply batch_bounds_Ok in Hb' as [Hlo' Hhi'].
    split; [congruence|].
    apply (int_truediv_mono ((i + 1) * R) ((i + 1 + 1) * R) N hi hi');
      [nia|lia|exact Hhi|exact Hhi'].
Qed.

Lemma batch_bounds_chain_example :
  0 <= 0 <= 2 ^ 53 /\
  (0 = 0 -> 0 = 0) /\
  (forall lo' hi', batch_bounds (2 ^ 53 + 1) 1 (0 + 1) = Ok (lo', hi') ->
                   lo' = 2 ^ 53 /\ 2 ^ 53 <= hi').
Proof.
  apply (batch_bounds_chain (2 ^ 53 + 1) 1 0 0 (2 ^ 53)); try lia.
  vm_compute. reflexivity.
Defined.

(** X7.  While the products stay below 2^53, a batch that loads holds the
    rows between its two floors: their number is the whole part of [R / N]
    or one more. *)
Theorem load_dataset_batch_row_count env i s s' f rows :
  files env !! loadpath s = Some f ->
  h5_datasets f !! h5key s = Some rows ->
  1 <= num_batches s ->
  num_batches s * Z.of_nat (length rows) < 2 ^ 53 ->
  0 <= i < num_batches s ->
  load_dataset_batch env i s = Done s' ->
  exists a,
    dataset s' = Some a /\
    Z.of_nat (length a) =
      floor_end (Z.of_nat (length rows)) (num_batches s) i -
      floor_start (Z.of_nat (length rows)) (num_batches s) i /\
    Z.of_nat (length rows) / num_batches s <= Z.of_nat (length a)
      <= Z.of_nat (length rows) / num_batches s + 1.
Proof.
  intros Hf Hr HN Hsmall Hi H.
  apply load_dataset_batch_Done in H as (f' & rows' & lo & hi & Hf' & Hr' & Hb & _ & ->).
  rewrite Hf in Hf'. injection Hf' as <-. rewrite Hr in Hr'. injection Hr' as <-.
  set (R := Z.of_nat (length rows)) in *. set (N := num_batches s) in *.
  rewrite batch_bounds_floor in Hb by (unfold R; lia).
  injection Hb as <- <-.
  exists (slice rows (floor_start R N i) (floor_end R N i)).
  split; [reflexivity|].
  assert (HR : 0 <= R) by (unfold R; lia).
  assert (H1 : 0 <= floor_start R N i <= floor_end R N i).
  { unfold floor_start, floor_end. split.
    - apply Z.div_pos; nia.
    - apply Z.div_le_mono; nia. }
  assert (H2 : floor_end R N i <= R).
  { unfold floor_end. apply Z.div_le_upper_bound; nia. }
  rewrite slice_length by (fold R; lia).
  split; [reflexivity|].
  unfold floor_start, floor_end.
  replace ((i + 1) * R) with (i * R + R) by lia.
  apply floor_size. lia.
Qed.

Lemma load_dataset_batch_row_count_example :
  exists a,
    dataset (set_dataset (slice example_rows 1 3) (set_num_batches 3 example_data))
      = Some a /\
    Z.of_nat (length a) =
      floor_end (Z.of_nat (length example_rows)) 3 1 -
      floor_start (Z.of_nat (length example_rows)) 3 1 /\
    Z.of_nat (length example_rows) / 3 <= Z.of_nat (length a)
      <= Z.of_nat (length example_rows) / 3 + 1.
Proof.
  apply (load_dataset_batch_row_count example_env 1 (set_num_batches 3 example_data)
           (set_dataset (slice example_rows 1 3) (set_num_batches 3 example_data))
           example_file example_rows); try reflexivity; simpl; lia.
Defined.

(** ** Failures while saving and in the main loop *)

(** X8.  A save that raises changes nothing but its own target: the object
    is as it was and every other path of the disk holds what it held.  When
    the target could not be opened the disk is untouched.  Otherwise the
    target exists afterwards, empty when no array had been loaded, and what
    it holds does not depend on what it held before: from any other disk the
    same save raises the same exception and leaves the same content there. *)
Theorem save_dataset_failure_touches_only_target env corr batch self d e w' :
  save_dataset env corr batch (MkWorld self d) = Raised e w' ->
  data w' = self /\
  (forall p, p <> full_savepath corr batch self -> disk w' !! p = d !! p) /\
  (open_fault env (full_savepath corr batch self) <> None -> disk w' = d) /\
  (open_fault env (full_savepath corr batch self) = None ->
   disk w' !! full_savepath corr batch self <> None /\
   (dataset self = None -> disk w' !! full_savepath corr batch self = Some ∅)) /\
  (forall d2,
     exists w2,
       save_dataset env corr batch (MkWorld self d2) = Raised e w2 /\
       (open_fault env (full_savepath corr batch self) = None ->
        disk w2 !! full_savepath corr batch self =
        disk w' !! full_savepath corr batch self)).
Proof.
  unfold save_dataset. simpl.
  destruct (open_fault env (full_savepath corr batch self)) as [e0|] eqn:Eo.
  - intros [= <- <-]. simpl.
    split; [reflexivity|]. split; [reflexivity|]. split; [reflexivity|].
    split; [discriminate|]. intros d2. eexists. split; [reflexivity|discriminate].
  - destruct (dataset self) as [a|].
    + destruct (write_fault env (full_savepath corr batch self) a) as [[e1 rest]|];
        [|discriminate].
      intros [= <- <-]. simpl.
      split; [reflexivity|]. split; [intros p Hp; apply lookup_insert_ne; congruence|].
      split; [intros Hc; exfalso; apply Hc; reflexivity|].
      split.
      * intros _. rewrite lookup_insert_eq. split; [discriminate|discriminate].
      * intros d2. eexists. split; [reflexivity|]. intros _. simpl.
        rewrite !lookup_insert_eq. reflexivity.
    + intros [= <- <-]. simpl.
      split; [reflexivity|]. split; [intros p Hp; apply lookup_insert_ne; congruence|].
      split; [intros Hc; exfalso; apply Hc; reflexivity|].
      split.
      * intros _. rewrite lookup_insert_eq. split; [discriminate|reflexivity].
      * intros d2. eexists. split; [reflexivity|]. intros _. simpl.
        rewrite !lookup_insert_eq. reflexivity.
Qed.







Lemma save_dataset_failure_example :
  data (MkWorld example_data (<["out/x.h5" := ∅]> ∅)) = example_data /\
  (forall p, p <> full_savepath false 0 example_data ->
             disk (MkWorld example_data (<["out/x.h5" := ∅]> ∅)) !! p
             = (<["out/x.h5" := {[ "old" := [[[7]]] ]}]> ∅ :
                  gmap string (gmap string (array3 Z))) !! p) /\
  (open_fault example_env (full_savepath false 0 example_data) <> None ->
   disk (MkWorld example_data (<["out/x.h5" := ∅]> ∅))
   = <["out/x.h5" := {[ "old" := [[[7]]] ]}]> ∅) /\
  (open_fault example_env (full_savepath false 0 example_data) = None ->
   disk (MkWorld example_data (<["out/x.h5" := ∅]> ∅)) !! full_savepath false 0 example_data
     <> None /\
   (dataset example_data = None ->
    disk (MkWorld example_data (<["out/x.h5" := ∅]> ∅)) !! full_savepath false 0 example_data
      = Some ∅)) /\
  (forall d2,
     exists w2,
       save_dataset example_env false 0 (MkWorld example_data d2)
         = Raised (AttributeError "dataset") w2 /\
       (open_fault example_env (full_savepath false 0 example_data) = None ->
        disk w2 !! full_savepath false 0 example_data =
        disk (MkWorld example_data (<["out/x.h5" := ∅]> ∅))
          !! full_savepath false 0 example_data)).
Proof.
  apply (save_dataset_failure_touches_only_target example_env false 0 example_data
           (<["out/x.h5" := {[ "old" := [[[7]]] ]}]> ∅) (AttributeError "dataset")
           (MkWorld example_data (<["out/x.h5" := ∅]> ∅))).
  vm_compute. reflexivity.
Defined.




(** ** Save paths of one object *)

(** X11.  For one object, the save path tells the correction flag, and with
    more than one batch also the batch index: corrected and uncorrected
    output never share a file, nor do two batches. *)
Theorem full_savepath_distinct c c' i j s :
  full_savepath c i s = full_savepath c' j s ->
  c = c' /\ (1 < num_batches s -> i = j).
Proof.
  intros H.
  assert (Hc : c = c').
  { rewrite !full_savepath_derive in H. unfold derive in H.
    apply string_app_inv_head in H.
    destruct c, c'; try reflexivity; exfalso;
      destruct (1 <? num_batches s); rewrite ?string_app_cons in H; discriminate. }
  split; [exact Hc|]. subst c'. intros Hn.
  apply (full_savepath_inj c i j s Hn H).
Qed.

Lemma full_savepath_distinct_example :
  true = true /\ (1 < num_batches (set_num_batches 3 example_data) -> 2 = 2).
Proof.
  apply (full_savepath_distinct true true 2 2 (set_num_batches 3 example_data)).
  reflexivity.
Defined.

(** ** What a raising method leaves *)

(** X12.  A load that raises leaves the object exactly as it was, and a
    correction that raises leaves the loaded array as it was: the array is
    replaced only by a step that completes. *)
Theorem raising_step_keeps_dataset env batch s e s' :
  (load_dataset_batch env batch s = Raised e s' -> s' = s) /\
  (linear_correction env s = Raised e s' -> dataset s' = dataset s).
Proof.
  split.
  - unfold load_dataset_batch.
    destruct (open_read env s) as [f|]; [|intros [= _ <-]; reflexivity].
    destruct (h5_datasets f !! h5key s) as [rows|]; [|intros [= _ <-]; reflexivity].
    destruct (batch_bounds _ _ _) as [[lo hi]|]; [|intros [= _ <-]; reflexivity].
    destruct (read_fault env (h5key s) lo hi); [intros [= _ <-]; reflexivity|discriminate].
  - unfold linear_correction.
    pose proof (get_linear_offset_keeps env s) as (_ & _ & Hd1).
    destruct (get_linear_offset env s) as [s1|e1 s1]; simpl in *;
      [|intros [= _ <-]; exact Hd1].
    assert (Hd2 : dataset (final (get_linear_scale env s1)) = dataset s1)
      by (unfold get_linear_scale; destruct (Py.bind _ _); reflexivity).
    destruct (get_linear_scale env s1) as [s2|e2 s2]; simpl in *;
      [|intros [= _ <-]; congruence].
    unfold apply_correction.
    destruct (linear_scale s2), (dataset s2) as [a|] eqn:Ea, (linear_offset s2);
      try (intros [= _ <-]; congruence).
    destruct (arith_fault env a); [intros [= _ <-]; congruence|discriminate].
Qed.

(** ** Listing the keys of a file *)

(** X13.  After [load_h5keys] the key list holds the names of the walk that
    are datasets of the opened file, in the order of the walk and nothing
    else; every listed key is one [load_dataset_batch] finds.  The rest of
    the object is unchanged. *)
Theorem load_h5keys_lists_the_datasets visit env self s' :
  load_h5keys visit env self = Done s' ->
  exists f,
    files env !! loadpath self = Some f /\
    h5keys s' `sublist_of` visit f /\
    (forall k, In k (h5keys s') <->
               In k (visit f) /\ exists rows, h5_datasets f !! k = Some rows) /\
    s' = set_h5keys (h5keys s') self.
Proof.
  unfold load_h5keys, open_read.
  destruct (files env !! loadpath self) as [f|]; [|discriminate].
  intros [= <-]. exists f. split; [reflexivity|]. simpl.
  split; [apply sublist_filter|]. split; [|reflexivity].
  intros k. rewrite <- !list_elem_of_In, list_elem_of_filter.
  unfold is_dataset. destruct (h5_datasets f !! k) as [rows|]; simpl.
  - split; [intros [_ H]; eauto|intros [H _]; auto].
  - split; [intros [[] _]|intros [_ [rows [=]]]].
Qed.

Lemma load_h5keys_example :
  exists f,
    files example_env !! loadpath example_data = Some f /\
    h5keys (set_h5keys ["g/d"] example_data) `sublist_of` example_visit f /\
    (forall k, In k (h5keys (set_h5keys ["g/d"] example_data)) <->
               In k (example_visit f) /\ exists rows, h5_datasets f !! k = Some rows) /\
    set_h5keys ["g/d"] example_data =
    set_h5keys (h5keys (set_h5keys ["g/d"] example_data)) example_data.
Proof.
  apply (load_h5keys_lists_the_datasets example_visit example_env example_data
           (set_h5keys ["g/d"] example_data)).
  vm_compute. reflexivity.
Defined.

(** ** Selecting keys *)

Lemma py_in_In x l : py_in x l = true <-> In x l.
Proof.
  unfold py_in. rewrite existsb_exists. split.
  - intros (y & Hy & E). apply String.eqb_eq in E. subst. exact Hy.
  - intros H. exists x. split; [exact H|apply String.eqb_refl].
Qed.

Lemma list_remove_In x l : In x l -> exists l', list_remove x l = Ok l'.
Proof.
  induction l as [|y l IH]; intros H; [destruct H|]. simpl.
  destruct (String.eqb y x) eqn:E; [eauto|].
  destruct H as [->|H]; [rewrite String.eqb_refl in E; discriminate|].
  destruct (IH H) as [l' ->]. simpl. eauto.
Qed.

Lemma list_remove_spec x : forall l l',
  NoDup l -> list_remove x l = Ok l' ->
  NoDup l' /\ ~ In x l' /\ (forall y, y <> x -> (In y l' <-> In y l)).
Proof.
  induction l as [|y l IH]; intros l' Hnd H; [discriminate|]. simpl in H.
  apply NoDup_cons in Hnd as [Hy Hnd].
  destruct (String.eqb y x) eqn:E.
  - apply String.eqb_eq in E. subst y. injection H as <-.
    split; [exact Hnd|]. split; [rewrite <- list_elem_of_In; exact Hy|].
    intros z Hz. simpl. split; [auto|intros [?|?]; congruence].
  - apply String.eqb_neq in E.
    destruct (list_remove x l) as [r|] eqn:Er; simpl in H; [|discriminate].
    injection H as <-. destruct (IH r Hnd eq_refl) as (H1 & H2 & H3).
    split; [|split].
    + apply NoDup_cons. split; [|exact H1].
      rewrite list_elem_of_In, H3 by exact E. rewrite <- list_elem_of_In. exact Hy.
    + simpl. intros [?|?]; [congruence|auto].
    + intros z Hz. simpl. rewrite H3 by exact Hz. reflexivity.
Qed.

Lemma list_remove_last x : forall l, ~ In x l -> list_remove x (l ++ [x]) = Ok l.
Proof.
  induction l as [|y l IH]; intros H; simpl.
  - rewrite String.eqb_refl. reflexivity.
  - destruct (String.eqb y x) eqn:E.
    + apply String.eqb_eq in E. subst. exfalso. apply H. left. reflexivity.
    + rewrite IH by (intros ?; apply H; right; assumption). reflexivity.
Qed.

Lemma update_h5keys_dd_final g : final (update_h5keys_dd g) = g.
Proof. unfold update_h5keys_dd. destruct (forallb _ _); reflexivity. Qed.

Lemma update_h5keys_dd_Done g :
  update_h5keys_dd g = Done g <->
  forall x, In x (selected_h5keys g) -> In x (h5keys (data (world g))).
Proof.
  unfold update_h5keys_dd.
  destruct (forallb _ _) eqn:E.
  - split; [|reflexivity]. intros _ x Hx.
    rewrite forallb_forall in E. apply py_in_In, E, Hx.
  - split; [discriminate|]. intros H. exfalso.
    assert (forallb (fun h5key => py_in h5key (h5keys (data (world g))))
              (selected_h5keys g) = true); [|congruence].
    apply forallb_forall. intros x Hx. apply py_in_In, H, Hx.
Qed.

Lemma update_h5keys_dd_raised g :
  raised (update_h5keys_dd g) = None <-> update_h5keys_dd g = Done g.
Proof.
  unfold update_h5keys_dd. destruct (forallb _ _); simpl; split; congruence.
Qed.

(** X14.  Choosing a key of the menu, which lists the keys of the data,
    toggles it and nothing else: on a selection without repetitions the key
    is selected afterwards exactly if it was not before, every other key
    keeps its state, the selection stays without repetitions, and the data
    and the correction flag are not touched.  The call completes exactly when
    every key selected afterwards is in the key list of the data; otherwise
    it raises [ValueError] from the menu update, the selection having been
    changed already. *)
Theorem select_h5key_toggles k g :
  In k (h5keys (data (world g))) ->
  NoDup (selected_h5keys g) ->
  exists g',
    final (select_h5key k g) = g' /\
    world g' = world g /\ corr g' = corr g /\
    NoDup (selected_h5keys g') /\
    (In k (selected_h5keys g') <-> ~ In k (selected_h5keys g)) /\
    (forall x, x <> k -> (In x (selected_h5keys g') <-> In x (selected_h5keys g))) /\
    (select_h5key k g = Done g' <->
     forall x, In x (selected_h5keys g') -> In x (h5keys (data (world g)))) /\
    (select_h5key k g = Done g' \/ select_h5key k g = Raised ValueError g').
Proof.
  intros _ Hnd. unfold select_h5key.
  assert (Hfin : forall t, world t = world g ->
            (update_h5keys_dd t = Done t <->
             forall x, In x (selected_h5keys t) -> In x (h5keys (data (world g)))) /\
            (update_h5keys_dd t = Done t \/ update_h5keys_dd t = Raised ValueError t)).
  { intros t Ht. split.
    - rewrite update_h5keys_dd_Done, Ht. reflexivity.
    - unfold update_h5keys_dd. destruct (forallb _ _); auto. }
  destruct (py_in k (selected_h5keys g)) eqn:Ein; simpl.
  - apply py_in_In in Ein. destruct (list_remove_In k _ Ein) as [l' Hl']. rewrite Hl'.
    destruct (list_remove_spec k _ l' Hnd Hl') as (H1 & H2 & H3).
    simpl. eexists. split; [apply update_h5keys_dd_final|]. simpl.
    split; [reflexivity|]. split; [reflexivity|]. split; [exact H1|].
    split; [tauto|]. split; [exact H3|].
    apply (Hfin (MkGui (world g) l' (corr g))). reflexivity.
  - assert (Hnot : ~ In k (selected_h5keys g))
      by (intros H; apply py_in_In in H; congruence).
    eexists. split; [apply update_h5keys_dd_final|]. simpl.
    split; [reflexivity|]. split; [reflexivity|]. split; [|split; [|split]].
    + apply NoDup_app. split; [exact Hnd|]. split.
      * intros x Hx Hk. apply list_elem_of_In in Hx, Hk. destruct Hk as [->|[]]. auto.
      * apply NoDup_singleton.
    + split; [intros _; exact Hnot|].
      intros _. apply in_or_app. right. left. reflexivity.
    + intros x Hx. split.
      * intros Hin. apply in_app_or in Hin as [Hin|[Hin|[]]]; [exact Hin|congruence].
      * intros Hin. apply in_or_app. left. exact Hin.
    + apply (Hfin (MkGui (world g) (selected_h5keys g ++ [k]) (corr g))). reflexivity.
Qed.

Lemma select_h5key_toggles_example :
  exists g',
    final (select_h5key "g/d" listed_gui) = g' /\
    world g' = world listed_gui /\ corr g' = corr listed_gui /\
    NoDup (selected_h5keys g') /\
    (In "g/d" (selected_h5keys g') <-> ~ In "g/d" (selected_h5keys listed_gui)) /\
    (forall x, x <> "g/d" ->
               (In x (selected_h5keys g') <-> In x (selected_h5keys listed_gui))) /\
    (select_h5key "g/d" listed_gui = Done g' <->
     forall x, In x (selected_h5keys g') -> In x (h5keys (data (world listed_gui)))) /\
    (select_h5key "g/d" listed_gui = Done g' \/
     select_h5key "g/d" listed_gui = Raised ValueError g').
Proof.
  apply (select_h5key_toggles "g/d" listed_gui).
  - left. reflexivity.
  - apply NoDup_singleton.
Defined.

(** X15.  When choosing a key of the menu completes, choosing it again
    completes too and undoes it: if the key was not selected before, the
    state is given back as it was; if it was selected (in a selection without
    repetitions), the key is selected again but at the end of the list, which
    is where [multiple_datasets] will handle it. *)
Theorem select_h5key_twice k g g1 :
  In k (h5keys (data (world g))) ->
  select_h5key k g = Done g1 ->
  exists g2,
    select_h5key k g1 = Done g2 /\
    (~ In k (selected_h5keys g) -> g2 = g) /\
    (In k (selected_h5keys g) -> NoDup (selected_h5keys g) ->
     selected_h5keys g2 = selected_h5keys g1 ++ [k]).
Proof.
  intros Hk. unfold select_h5key at 1.
  destruct (py_in k (selected_h5keys g)) eqn:Ein; simpl.
  - pose proof Ein as Hin. apply py_in_In in Hin.
    destruct (list_remove k (selected_h5keys g)) as [l'|] eqn:Hl'; [|discriminate].
    simpl. intros H1.
    pose proof (update_h5keys_dd_final (MkGui (world g) l' (corr g))) as Hf.
    rewrite H1 in Hf. simpl in Hf. subst g1.
    pose proof (proj1 (update_h5keys_dd_Done _) H1) as Hlisted. simpl in Hlisted.
    unfold select_h5key. simpl.
    destruct (py_in k l') eqn:Ein'; simpl.
    + destruct (list_remove_In k l' ltac:(apply py_in_In; exact Ein')) as [l2 Hl2].
      rewrite Hl2. simpl.
      assert (Hsub : forall x, In x l2 -> In x l').
      { clear - Hl2. revert l2 Hl2. induction l' as [|y l' IH]; intros l2 H; [discriminate|].
        simpl in H. destruct (String.eqb y k).
        - injection H as <-. intros x Hx. right. exact Hx.
        - destruct (list_remove k l') as [r|]; simpl in H; [|discriminate].
          injection H as <-. intros x [<-|Hx]; [left; reflexivity|right; eauto]. }
      assert (Hd : update_h5keys_dd (MkGui (world g) l2 (corr g))
                   = Done (MkGui (world g) l2 (corr g)))
        by (apply update_h5keys_dd_Done; simpl; auto).
      rewrite Hd. eexists. split; [reflexivity|]. split; [tauto|].
      intros _ Hnd. destruct (list_remove_spec k _ l' Hnd Hl') as (_ & H2 & _).
      apply py_in_In in Ein'. tauto.
    + assert (Hd : update_h5keys_dd (MkGui (world g) (l' ++ [k]) (corr g))
                   = Done (MkGui (world g) (l' ++ [k]) (corr g))).
      { apply update_h5keys_dd_Done. simpl.
        intros x Hx. apply in_app_or in Hx as [Hx|[<-|[]]]; auto. }
      rewrite Hd. eexists. split; [reflexivity|]. split; [tauto|]. reflexivity.
  - assert (Hnot : ~ In k (selected_h5keys g))
      by (intros H; apply py_in_In in H; congruence).
    intros H1.
    pose proof (update_h5keys_dd_final
                  (MkGui (world g) (selected_h5keys g ++ [k]) (corr g))) as Hf.
    rewrite H1 in Hf. simpl in Hf. subst g1.
    pose proof (proj1 (update_h5keys_dd_Done _) H1) as Hlisted. simpl in Hlisted.
    exists g. unfold select_h5key. simpl.
    assert (py_in k (selected_h5keys g ++ [k]) = true) as ->
      by (apply py_in_In, in_or_app; right; left; reflexivity).
    simpl. rewrite list_remove_last by exact Hnot. simpl.
    assert (Hg : MkGui (world g) (selected_h5keys g) (corr g) = g) by (destruct g; reflexivity).
    rewrite Hg.
    assert (Hd : update_h5keys_dd g = Done g).
    { apply update_h5keys_dd_Done. intros x Hx. apply Hlisted, in_or_app. left. exact Hx. }
    rewrite Hd. split; [reflexivity|]. split; [auto|tauto].
Qed.

Lemma select_h5key_twice_example :
  exists g2,
    select_h5key "g/e" (MkGui (world listed_gui) ["g/d"; "g/e"] false) = Done g2 /\
    (~ In "g/e" (selected_h5keys listed_gui) -> g2 = listed_gui) /\
    (In "g/e" (selected_h5keys listed_gui) -> NoDup (selected_h5keys listed_gui) ->
     selected_h5keys g2 =
       selected_h5keys (MkGui (world listed_gui) ["g/d"; "g/e"] false) ++ ["g/e"]).
Proof.
  apply (select_h5key_twice "g/e" listed_gui
           (MkGui (world listed_gui) ["g/d"; "g/e"] false)).
  - right. left. reflexivity.
  - reflexivity.
Defined.

(** ** Opening a file *)


(** ** Saving after a cancelled Open *)

Lemma handle_dataset_unreadable fuel env c w :
  files env !! loadpath (data w) = None ->
  handle_dataset (S fuel) env c w =
  Some (Raised OSError (MkWorld (set_num_batches 1 (data w)) (disk w))).
Proof.
  intros H. unfold handle_dataset, find_num_batches.
  rewrite sizing_loop_step. unfold probe, load_dataset_batch, open_read. simpl.
  rewrite H. reflexivity.
Qed.

(** X17.  A cancelled Open dialog still replaces the load path by the empty
    answer while the selection is kept.  A Save after it, with a selection
    that is not empty, therefore raises [OSError] at the first key, as no
    file has the empty path, and writes nothing. *)
Theorem cancelled_open_then_save_raises visit fuel path_join env answer c g :
  files env !! "" = None ->
  selected_h5keys g <> [] ->
  truthy answer = true ->
  exists g1 g2,
    open_h5 visit env "" g = Done g1 /\
    selected_h5keys g1 = selected_h5keys g /\
    save_h5 (S fuel) path_join env answer c g1 = Some (Raised OSError g2) /\
    disk (world g2) = disk (world g).
Proof.
  intros Hnone Hsel Ht.
  exists (set_world (MkWorld (set_loadpath "" (data (world g))) (disk (world g))) g).
  unfold save_h5, check_number_of_datasets.
  cbn [selected_h5keys set_world world].
  destruct (selected_h5keys g) as [|k [|k2 rest]] eqn:Es; [congruence| |].
  - unfold single_dataset. rewrite Ht.
    rewrite handle_dataset_unreadable by exact Hnone.
    eexists. split; [reflexivity|]. split; [reflexivity|]. split; reflexivity.
  - unfold multiple_datasets. rewrite Ht.
    cbn [selected_h5keys for_h5keys].
    rewrite handle_dataset_unreadable by exact Hnone.
    eexists. split; [reflexivity|]. split; [reflexivity|]. split; reflexivity.
Qed.

Lemma cancelled_open_then_save_example :
  exists g1 g2,
    open_h5 example_visit example_env "" example_gui = Done g1 /\
    selected_h5keys g1 = selected_h5keys example_gui /\
    save_h5 3 (fun d n => d +:+ "/" +:+ n) example_env "out/y" true g1
      = Some (Raised OSError g2) /\
    disk (world g2) = disk (world example_gui).
Proof.
  apply (cancelled_open_then_save_raises example_visit 2 (fun d n => d +:+ "/" +:+ n)
           example_env "out/y" true example_gui).
  - reflexivity.
  - discriminate.
  - reflexivity.
Defined.

(** ** Several datasets in one Save *)

Lemma for_h5keys_app fuel path_join env c directory before after : forall w,
  for_h5keys fuel path_join env c directory (before ++ after) w =
  match for_h5keys fuel path_join env c directory before w with
  | Some (Done w1) => for_h5keys fuel path_join env c directory after w1
  | r => r
  end.
Proof.
  induction before as [|k before IH]; intros w; [reflexivity|]. simpl.
  destruct (handle_dataset fuel env c _) as [[w1|e w1]|]; [apply IH|reflexivity|reflexivity].
Qed.

(** X18.  The keys of a multiple selection are handled in the order of the
    selection, and an exception at one key ends the whole Save: the keys
    after it are not handled, whatever they are. *)
Theorem multiple_datasets_stops_at_first_failure fuel path_join env answer g
    before k after w1 e w2 :
  truthy answer = true ->
  selected_h5keys g = before ++ k :: after ->
  for_h5keys fuel path_join env (corr g) answer before (world g) = Some (Done w1) ->
  handle_dataset fuel env (corr g)
    (MkWorld (set_savepath (path_join answer (replace_char "/" "-" k))
                (set_h5key k (data w1)))
             (disk w1)) = Some (Raised e w2) ->
  multiple_datasets fuel path_join env answer g = Some (Raised e (set_world w2 g)).
Proof.
  intros Ht Hsel Hbefore Hk. unfold multiple_datasets.
  rewrite Ht, Hsel, for_h5keys_app, Hbefore. simpl. rewrite Hk. reflexivity.
Qed.

Lemma multiple_datasets_stops_example :
  multiple_datasets 1 example_join example_env_roomy "out"
    (MkGui example_world ["g/x"; "g/d"] false) =
  Some (Raised (KeyError "g/x")
          (set_world (MkWorld (set_num_batches 1 (set_savepath "out/g-x"
                                                   (set_h5key "g/x" example_data))) ∅)
             (MkGui example_world ["g/x"; "g/d"] false))).
Proof.
  apply (multiple_datasets_stops_at_first_failure 1 example_join example_env_roomy "out"
           (MkGui example_world ["g/x"; "g/d"] false) [] "g/x" ["g/d"] example_world);
    reflexivity.
Defined.

Lemma set_num_batches_id s : set_num_batches (num_batches s) s = s.
Proof. destruct s. reflexivity. Qed.

Lemma sizing_loop_keeps env c : forall fuel s0 o,
  sizing_loop fuel env c s0 = Some o ->
  same_request s0 (final o) /\ savepath (final o) = savepath s0 /\
  num_batches s0 <= num_batches (final o).
Proof.
  induction fuel as [|fuel IH]; intros s0 o H; [discriminate|].
  rewrite sizing_loop_step in H.
  pose proof (probe_keeps env c s0) as [[[Hl Hk] Hn] Hs].
  destruct (probe env c s0) as [s'|e s'] eqn:Ep; simpl in *.
  - injection H as <-. simpl. repeat split; auto. lia.
  - destruct (caught e).
    + apply IH in H as ([Hl' Hk'] & Hs' & Hn'). simpl in *.
      repeat split; try congruence. lia.
    + injection H as <-. simpl. repeat split; auto. lia.
Qed.

Lemma handle_dataset_Done fuel env c w w' :
  handle_dataset fuel env c w = Some (Done w') ->
  exists s,
    find_num_batches fuel env c (data w) = Some (Done s) /\
    handle_batches env c (MkWorld s (disk w)) = Done w' /\
    h5key s = h5key (data w) /\ savepath s = savepath (data w) /\ 1 <= num_batches s.
Proof.
  unfold handle_dataset.
  destruct (find_num_batches fuel env c (data w)) as [[s|e s]|] eqn:E; try discriminate.
  simpl. intros [= H]. exists s. split; [reflexivity|]. split; [exact H|].
  unfold find_num_batches in E. apply sizing_loop_keeps in E as ([_ Hk] & Hs & Hn).
  simpl in *. repeat split; auto.
Qed.

(** Each batch of a completed run has a container of its own, holding one
    array under the key of the dataset. *)
Lemma for_batches_containers env corr self f rows : forall batches w w',
  files env !! loadpath self = Some f ->
  h5_datasets f !! h5key self = Some rows ->
  1 < num_batches self ->
  same_probe self (data w) -> savepath (data w) = savepath self ->
  NoDup batches ->
  for_batches env corr batches w = Done w' ->
  forall i, In i batches ->
    exists arr, disk w' !! full_savepath corr i self = Some {[h5key self := arr]}.
Proof.
  induction batches as [|b batches IH]; intros w w' Hf Hrows Hn Hsame Hsp Hnd H i Hi;
    [destruct Hi|].
  simpl in H.
  destruct (handle_batch env corr b w) as [w1|e w1] eqn:Eb; simpl in H; [|discriminate].
  apply handle_batch_Done in Eb
    as (f' & rows' & lo & hi & Hf' & Hrows' & Hb & Hdisk & Hkeep & Hsp').
  destruct Hsame as [[Hl Hk] Hnb].
  rewrite <- Hk in Hdisk.
  rewrite (full_savepath_same corr b (data w) self) in Hdisk by congruence.
  apply NoDup_cons in Hnd as [Hnotin Hnd].
  assert (Hsame1 : same_probe self (data w1)).
  { apply same_probe_trans with (data w); [repeat split; auto|exact Hkeep]. }
  destruct Hi as [<-|Hi].
  - destruct (for_batches_saved env corr self f rows batches w1 w' Hf Hrows Hn Hsame1
                ltac:(congruence) Hnd H) as [Hother _].
    rewrite Hother.
    + rewrite Hdisk, lookup_insert_eq. eauto.
    + intros j Hj E. apply full_savepath_inj in E; [|exact Hn]. subst j.
      apply Hnotin. apply list_elem_of_In. exact Hj.
  - apply (IH w1 w' Hf Hrows Hn Hsame1 ltac:(congruence) Hnd H i Hi).
Qed.

Lemma handle_batches_containers env c s d w' :
  1 <= num_batches s ->
  handle_batches env c (MkWorld s d) = Done w' ->
  (forall i, 0 <= i < num_batches s ->
     exists arr, disk w' !! full_savepath c i s = Some {[h5key s := arr]}) /\
  num_batches (data w') = num_batches s.
Proof.
  intros HN H.
  pose proof (for_batches_keeps env c (range (num_batches s)) (MkWorld s d)) as [[_ Hn] _].
  unfold handle_batches in H. simpl in H, Hn. rewrite H in Hn. simpl in Hn.
  split; [|congruence].
  destruct (Z.eq_dec (num_batches s) 1) as [E1|HN1].
  - intros i Hi. assert (i = 0) as -> by lia.
    rewrite E1 in H. change (range 1) with [0] in H. simpl in H.
    destruct (handle_batch env c 0 _) as [w2|e w2] eqn:E; simpl in H; [|discriminate].
    injection H as <-.
    apply handle_batch_Done in E as (f & rows & lo & hi & _ & _ & _ & Hd & _).
    simpl in Hd. rewrite Hd, lookup_insert_eq. eauto.
  - assert (Hfirst : exists w1, handle_batch env c 0 (MkWorld s d) = Done w1).
    { assert (range (num_batches s) =
              0 :: map Z.of_nat (seq 1 (Z.to_nat (num_batches s) - 1))) as E.
      { unfold range. destruct (Z.to_nat (num_batches s)) as [|n] eqn:En; [lia|].
        simpl. rewrite Nat.sub_0_r. reflexivity. }
      rewrite E in H. simpl in H.
      destruct (handle_batch env c 0 _) as [w1|e w1]; [eauto|discriminate]. }
    destruct Hfirst as [w1 Hw1].
    apply handle_batch_Done in Hw1 as (f & rows & lo0 & hi0 & Hf & Hrows & _).
    simpl in Hf, Hrows.
    intros i Hi.
    apply (for_batches_containers env c s f rows (range (num_batches s)) (MkWorld s d) w');
      auto; [lia|apply same_probe_refl|apply NoDup_range|apply in_range; exact Hi].
Qed.

Lemma for_h5keys_single fuel path_join env c directory k w w' :
  for_h5keys fuel path_join env c directory [k] w = Some (Done w') ->
  handle_dataset fuel env c
    (MkWorld (set_savepath (path_join directory (replace_char "/" "-" k))
                (set_h5key k (data w)))
             (disk w)) = Some (Done w').
Proof.
  simpl. destruct (handle_dataset fuel env c _) as [[w1|e w1]|]; simpl; congruence.
Qed.

(** What handling one key of a multiple selection leaves on disk. *)
Lemma for_h5keys_single_containers fuel path_join env c directory k w w' :
  for_h5keys fuel path_join env c directory [k] w = Some (Done w') ->
  1 <= num_batches (data w') /\
  forall i, 0 <= i < num_batches (data w') ->
    exists arr,
      disk w' !! full_savepath c i
                   (set_num_batches (num_batches (data w'))
                      (set_savepath (path_join directory (replace_char "/" "-" k))
                         (data w)))
      = Some {[k := arr]}.
Proof.
  intros H. apply for_h5keys_single, handle_dataset_Done in H
    as (s & _ & Hrun & Hk & Hs & HN).
  simpl in Hk, Hs.
  apply handle_batches_containers in Hrun as [Hc Hn]; [|exact HN].
  rewrite Hn. split; [exact HN|].
  intros i Hi. destruct (Hc i Hi) as [arr Harr]. exists arr.
  rewrite Hk in Harr. rewrite <- Harr. f_equal.
  apply full_savepath_same; simpl; congruence.
Qed.

(** X19.  In a multiple selection the file name of a key is the key with
    every slash turned into a hyphen, so two keys that differ only there are
    saved under the same names.  When both are handled with the same number
    of batches, the files of the first hold its array after it is done and
    no longer after the second is done: the second key's files replace them. *)
Theorem keys_differing_in_slash_overwrite fuel path_join env c directory k1 k2 w w1 w2 :
  replace_char "/" "-" k1 = replace_char "/" "-" k2 ->
  k1 <> k2 ->
  for_h5keys fuel path_join env c directory [k1] w = Some (Done w1) ->
  for_h5keys fuel path_join env c directory [k2] w1 = Some (Done w2) ->
  num_batches (data w1) = num_batches (data w2) ->
  for_h5keys fuel path_join env c directory [k1; k2] w = Some (Done w2) /\
  forall i, 0 <= i < num_batches (data w1) ->
    saved (disk w1) (full_savepath c i (data w1)) k1 <> None /\
    saved (disk w2) (full_savepath c i (data w1)) k1 = None /\
    saved (disk w2) (full_savepath c i (data w1)) k2 <> None.
Proof.
  intros Hname Hne H1 H2 HN.
  split.
  { change [k1; k2] with ([k1] ++ [k2]). rewrite for_h5keys_app, H1. exact H2. }
  pose proof (for_h5keys_single_containers _ _ _ _ _ _ _ _ H1) as [HN1 Hc1].
  pose proof (for_h5keys_single_containers _ _ _ _ _ _ _ _ H2) as [HN2 Hc2].
  apply for_h5keys_single, handle_dataset_Done in H1 as (s1 & _ & Hrun1 & _ & Hs1 & _).
  pose proof (for_batches_keeps env c (range (num_batches s1)) (MkWorld s1 (disk w))) as [_ Hsp].
  unfold handle_batches in Hrun1. simpl in Hrun1, Hsp. rewrite Hrun1 in Hsp. simpl in Hsp, Hs1.
  intros i Hi.
  assert (Hp1 : full_savepath c i (data w1) =
                full_savepath c i
                  (set_num_batches (num_batches (data w1))
                     (set_savepath (path_join directory (replace_char "/" "-" k1)) (data w))))
    by (apply full_savepath_same; simpl; congruence).
  assert (Hp2 : full_savepath c i (data w1) =
                full_savepath c i
                  (set_num_batches (num_batches (data w2))
                     (set_savepath (path_join directory (replace_char "/" "-" k2)) (data w1))))
    by (apply full_savepath_same; simpl; congruence).
  destruct (Hc1 i Hi) as [arr1 Ha1]. destruct (Hc2 i ltac:(lia)) as [arr2 Ha2].
  rewrite <- Hp1 in Ha1. rewrite <- Hp2 in Ha2.
  unfold saved. rewrite Ha1, Ha2.
  rewrite !lookup_singleton_eq, lookup_singleton_ne by congruence.
  repeat split; congruence.
Qed.

Lemma keys_differing_in_slash_example :
  for_h5keys 1 example_join collision_env false "out" ["g/d"; "g-d"] example_world =
    Some (Done (world_after 1 collision_env false "out" ["g/d"; "g-d"] example_world)) /\
  forall i,
    0 <= i < num_batches (data (world_after 1 collision_env false "out" ["g/d"] example_world)) ->
    saved (disk (world_after 1 collision_env false "out" ["g/d"] example_world))
      (full_savepath false i
         (data (world_after 1 collision_env false "out" ["g/d"] example_world))) "g/d"
      <> None /\
    saved (disk (world_after 1 collision_env false "out" ["g/d"; "g-d"] example_world))
      (full_savepath false i
         (data (world_after 1 collision_env false "out" ["g/d"] example_world))) "g/d"
      = None /\
    saved (disk (world_after 1 collision_env false "out" ["g/d"; "g-d"] example_world))
      (full_savepath false i
         (data (world_after 1 collision_env false "out" ["g/d"] example_world))) "g-d"
      <> None.
Proof.
  apply (keys_differing_in_slash_overwrite 1 example_join collision_env false "out"
           "g/d" "g-d" example_world
           (world_after 1 collision_env false "out" ["g/d"] example_world)
           (world_after 1 collision_env false "out" ["g/d"; "g-d"] example_world)).
  - reflexivity.
  - discriminate.
  - vm_compute. reflexivity.
  - vm_compute. reflexivity.
  - vm_compute. reflexivity.
Defined.

(** ** A run without failures *)

Lemma slice_all {A} (l : list A) : slice l 0 (Z.of_nat (length l)) = l.
Proof.
  unfold slice, slice_index. simpl.
  destruct (Z.of_nat (length l) <? 0) eqn:E; [apply Z.ltb_lt in E; lia|].
  rewrite Z.min_id, Z.min_l by lia. rewrite Z.sub_0_r, Nat2Z.id.
  simpl. apply firstn_all.
Qed.

Lemma probe_Done_dataset env c s0 s :
  probe env c s0 = Done s -> exists a, dataset s = Some a.
Proof.
  unfold probe.
  destruct (load_dataset_batch env 0 s0) as [s1|e s1] eqn:El; simpl; [|discriminate].
  apply load_dataset_batch_Done in El as (f & rows & lo & hi & _ & _ & _ & _ & ->).
  destruct c.
  - intros H. apply linear_correction_Done in H as (f' & off & sc & a & _ & _ & _ & _ & ->).
    simpl. eauto.
  - intros [= <-]. simpl. eauto.
Qed.

Lemma probe_whole_dataset env c s f rows :
  files env !! loadpath s = Some f ->
  h5_datasets f !! h5key s = Some rows ->
  Z.of_nat (length rows) < 2 ^ 53 ->
  num_batches s = 1 ->
  read_fault env (h5key s) 0 (Z.of_nat (length rows)) = None ->
  (c = true ->
   exists attrs offset scale,
     h5_groups f !! parent_group (h5key s) = Some attrs /\
     attrs !! offset_attribute (h5key s) = Some offset /\
     attrs !! scale_attribute (h5key s) = Some scale /\
     arith_fault env rows = None) ->
  exists s', probe env c s = Done s' /\ num_batches s' = 1.
Proof.
  intros Hf Hr Hsmall HN Hread Hcorr. unfold probe.
  rewrite (load_dataset_batch_Done_intro env 0 s f rows 0 (Z.of_nat (length rows)) Hf Hr).
  - rewrite slice_all. simpl. destruct c.
    + destruct (Hcorr eq_refl) as (attrs & off & sc & Hg & Ho & Hs & Ha).
      rewrite (linear_correction_Done_intro env (set_dataset rows s) f attrs off sc rows);
        auto.
      eexists. split; [reflexivity|]. exact HN.
    + eexists. split; [reflexivity|]. exact HN.
  - rewrite HN, batch_bounds_first by lia. rewrite Z.div_1_r. reflexivity.
  - exact Hread.
Qed.

(** X20.  The run the program is written for.  When the dataset has fewer
    than 2^53 rows and nothing fails (the whole dataset can be read; when
    correction is requested the key has a group part and that group carries
    the conversion attributes; and the target can be written), [handle_dataset] returns after a single probe,
    keeps one batch, and leaves at the path without batch suffix a container
    holding, under the key of the dataset, every element of the dataset
    corrected when requested and cast to uint16. *)
Theorem handle_dataset_saves_whole_dataset fuel env c w f rows :
  files env !! loadpath (data w) = Some f ->
  h5_datasets f !! h5key (data w) = Some rows ->
  Z.of_nat (length rows) < 2 ^ 53 ->
  read_fault env (h5key (data w)) 0 (Z.of_nat (length rows)) = None ->
  (c = true ->
   parent_group (h5key (data w)) <> "" /\
   exists attrs offset scale,
     h5_groups f !! parent_group (h5key (data w)) = Some attrs /\
     attrs !! offset_attribute (h5key (data w)) = Some offset /\
     attrs !! scale_attribute (h5key (data w)) = Some scale /\
     arith_fault env rows = None) ->
  open_fault env (full_savepath c 0 (set_num_batches 1 (data w))) = None ->
  (forall a, write_fault env (full_savepath c 0 (set_num_batches 1 (data w))) a = None) ->
  exists w',
    handle_dataset (S fuel) env c w = Some (Done w') /\
    num_batches (data w') = 1 /\
    disk w' =
      <[full_savepath c 0 (set_num_batches 1 (data w)) :=
          {[h5key (data w) := map3 (stored_element f (h5key (data w)) c) rows]}]> (disk w).
Proof.
  intros Hf Hr Hsmall Hread Hcorr0 Hopen Hwrite.
  assert (Hcorr : c = true ->
            exists attrs offset scale,
              h5_groups f !! parent_group (h5key (data w)) = Some attrs /\
              attrs !! offset_attribute (h5key (data w)) = Some offset /\
              attrs !! scale_attribute (h5key (data w)) = Some scale /\
              arith_fault env rows = None)
    by (intros Hc; apply Hcorr0; exact Hc).
  clear Hcorr0.
  destruct (probe_whole_dataset env c (set_num_batches 1 (data w)) f rows)
    as (s & Hp & Hs1); auto.
  pose proof (probe_keeps env c (set_num_batches 1 (data w))) as [[[Hl Hk] _] Hsp].
  rewrite Hp in Hl, Hk, Hsp. simpl in Hl, Hk, Hsp.
  unfold handle_dataset, find_num_batches. rewrite sizing_loop_step, Hp. simpl.
  unfold handle_batches. simpl. rewrite Hs1. change (range 1) with [0]. simpl.
  assert (Hpath : full_savepath c 0 s = full_savepath c 0 (set_num_batches 1 (data w)))
    by (apply full_savepath_same; simpl; congruence).
  assert (Hrun : exists w', handle_batch env c 0 (MkWorld s (disk w)) = Done w').
  { unfold handle_batch. simpl.
    pose proof (probe_fixpoint env c _ s Hp) as Hp'. unfold probe in Hp'.
    destruct (load_dataset_batch env 0 s) as [s1|e s1] eqn:El; simpl in *; [|discriminate].
    pose proof (load_dataset_batch_keeps env 0 s) as [[_ Hn1] Hs1'].
    rewrite El in Hn1, Hs1'. simpl in Hn1, Hs1'.
    assert (Hsave : forall s2, s2 = s ->
              exists w', save_dataset env c 0 (MkWorld s2 (disk w)) = Done w').
    { intros s2 ->.
      destruct (probe_Done_dataset env c _ s Hp) as [a Ha].
      eexists. apply (save_dataset_Done_intro env c 0 (MkWorld s (disk w)) a).
      - simpl. rewrite Hpath. exact Hopen.
      - exact Ha.
      - simpl. rewrite Hpath. apply Hwrite. }
    destruct c.
    - rewrite Hp'. simpl. apply Hsave. reflexivity.
    - apply Hsave. congruence. }
  destruct Hrun as [w' Hrun]. rewrite Hrun. simpl.
  exists w'. split; [reflexivity|].
  pose proof (handle_batch_keeps env c 0 (MkWorld s (disk w))) as [[_ Hn] _].
  rewrite Hrun in Hn. simpl in Hn.
  split; [congruence|].
  apply handle_batch_Done in Hrun
    as (f' & rows' & lo & hi & Hf' & Hr' & Hb & Hd & _).
  simpl in Hf', Hr', Hb, Hd.
  rewrite <- Hl, Hf in Hf'. injection Hf' as <-.
  rewrite <- Hk, Hr in Hr'. injection Hr' as <-.
  rewrite Hs1, batch_bounds_first in Hb by lia. rewrite Z.div_1_r in Hb.
  injection Hb as <- <-. rewrite slice_all in Hd.
  rewrite Hd, Hpath, <- Hk. reflexivity.
Qed.

Lemma handle_dataset_saves_whole_dataset_example :
  exists w',
    handle_dataset 1 example_env_roomy true example_world = Some (Done w') /\
    num_batches (data w') = 1 /\
    disk w' =
      <[full_savepath true 0 (set_num_batches 1 (data example_world)) :=
          {[h5key (data example_world) :=
              map3 (stored_element example_file (h5key (data example_world)) true)
                   example_rows]}]> (disk example_world).
Proof.
  apply (handle_dataset_saves_whole_dataset 0 example_env_roomy true example_world
           example_file example_rows); try reflexivity.
  intros _. split; [vm_compute; discriminate|].
  exists example_attrs, (float_of_int 10), (float_of_int 2).
  repeat split; reflexivity.
Defined.

(** ** A Save with nothing to do *)

(** X21.  With an empty selection, or a dialog that is cancelled, a Save
    returns at once without raising and without reading or writing a file;
    it records the correction flag, and for a single selected key also that
    key and the empty save path, which the cancelled dialog answered. *)
Theorem save_h5_without_work fuel path_join env answer c g :
  truthy answer = false \/ selected_h5keys g = [] ->
  exists g',
    save_h5 fuel path_join env answer c g = Some (Done g') /\
    disk (world g') = disk (world g) /\
    selected_h5keys g' = selected_h5keys g /\
    corr g' = c /\
    (forall k, selected_h5keys g = [k] ->
       data (world g') = set_savepath answer (set_h5key k (data (world g)))) /\
    (length (selected_h5keys g) <> 1%nat -> world g' = world g).
Proof.
  intros H. unfold save_h5, check_number_of_datasets. cbn [selected_h5keys].
  destruct (selected_h5keys g) as [|k [|k2 rest]] eqn:Es.
  - eexists. split; [reflexivity|]. simpl. rewrite ?Es.
    repeat split; auto. intros k [=].
  - destruct H as [Ht|[=]]. unfold single_dataset. rewrite Ht.
    eexists. split; [reflexivity|]. simpl. rewrite ?Es.
    repeat split; auto.
    + intros k' [= <-]. reflexivity.
    + intros Hc. exfalso. apply Hc. reflexivity.
  - destruct H as [Ht|[=]]. unfold multiple_datasets. rewrite Ht.
    eexists. split; [reflexivity|]. simpl. rewrite ?Es.
    repeat split; auto. intros k' [=].
Qed.

Lemma save_h5_without_work_example :
  exists g',
    save_h5 0 example_join example_env "" true example_gui = Some (Done g') /\
    disk (world g') = disk (world example_gui) /\
    selected_h5keys g' = selected_h5keys example_gui /\
    corr g' = true /\
    (forall k, selected_h5keys example_gui = [k] ->
       data (world g') = set_savepath "" (set_h5key k (data (world example_gui)))) /\
    (length (selected_h5keys example_gui) <> 1%nat -> world g' = world example_gui).
Proof.
  apply (save_h5_without_work 0 example_join example_env "" true example_gui).
  left. reflexivity.
Defined.
